(** * KRISHI-AI: soil-health scoring and the weather fallback

    A shallow embedding of the two computation units of the server:

    - the handler of [POST /api/soil-analysis] (mainroute.srver.ts), and
    - [WeatherService.getCurrentWeather] with its synthetic fallback
      [getReliableWeatherData] (weather-service.ts).

    JavaScript numbers that come from the request body are binary64 values
    and are only ever compared with literals, so they are embedded as Rocq's
    primitive floats (NaN makes every comparison false, as in JavaScript).
    The running score is a small integer and is embedded as [Z].

    The weather fallback multiplies random draws by integer literals and
    takes the floor.  Draws and products are embedded as rationals, and the
    binary64 rounding of a product is an explicit function [fl] of which
    only the standard error bound is assumed (see [Weather.Rounding]).

    Strings are kept as the bytes of their UTF-8 form, surrogates without
    partner included.  Trimming, code units and URI encoding are computed
    on these bytes.  The case mappings depend on the Unicode tables of the
    engine and are parameters (see [Str.CaseMapping]).

    Further on, the advisory helpers of the weather service, the weather
    route, the price-negotiation route (whose prices are computed on
    primitive floats, with [Math.round] read off mantissa and exponent) and
    the farmer question-and-answer route are embedded in the same way. *)

Set Warnings "-inexact-float".

From Stdlib Require Import ZArith List String Ascii Bool Lia.
From Stdlib Require Import QArith Qround Qabs Lqa.
From Stdlib Require Import PrimFloat DecimalString.
From Stdlib Require Import Floats.
From Stdlib Require Uint63.
Import ListNotations.
Open Scope string_scope.
Open Scope Z_scope.

(** ** JavaScript values and relational operators *)

Module JS.

(** What a body field can hold after JSON parsing; [JUndefined] is a field
    that is missing from the body.  A string, an array or an object is kept
    as [JOther n], with the number [n] that ToNumber gives for it (an
    object for which ToNumber throws is no value of this type). *)
Inductive jsval : Type :=
| JUndefined
| JNull
| JBool (b : bool)
| JNumber (x : float)
| JOther (n : float).

(** ECMAScript ToNumber. *)
Definition ToNumber (v : jsval) : float :=
  match v with
  | JUndefined => nan
  | JNull => 0%float
  | JBool true => 1%float
  | JBool false => 0%float
  | JNumber x => x
  | JOther n => n
  end.

(** [v >= c], [v <= c], [v < c], [v > c] against a numeric literal [c]:
    both sides go through ToNumber and a NaN operand yields [false]. *)
Definition ge (v : jsval) (c : float) : bool := (c <=? ToNumber v)%float.
Definition le (v : jsval) (c : float) : bool := (ToNumber v <=? c)%float.
Definition lt (v : jsval) (c : float) : bool := (ToNumber v <? c)%float.
Definition gt (v : jsval) (c : float) : bool := (c <? ToNumber v)%float.

(** [Boolean(x)] on an array element that is either a string or [null]. *)
Definition Boolean (x : option string) : bool :=
  match x with
  | Some s => negb (String.eqb s "")
  | None => false
  end.

(** [arr.filter(Boolean)] on such an array. *)
Fixpoint filter_Boolean (arr : list (option string)) : list string :=
  match arr with
  | [] => []
  | Some s :: rest =>
      if Boolean (Some s) then s :: filter_Boolean rest
      else filter_Boolean rest
  | None :: rest => filter_Boolean rest
  end.

End JS.

(** ** The soil-analysis route *)

Module Soil.
Import JS.

(** The fields the handler destructures from [req.body] and reads.
    ([temperature] and [region] are destructured but never read.) *)
Record Body : Type := mkBody {
  pH : jsval;
  nitrogen : jsval;
  phosphorus : jsval;
  potassium : jsval;
  organicMatter : jsval;
  moisture : jsval
}.

Definition msg_nitrogen : string :=
  "नाइट्रोजन की कमी - यूरिया या वर्मी कंपोस्ट डालें".
Definition msg_phosphorus : string :=
  "फास्फोरस की कमी - SSP या DAP का उपयोग करें".
Definition msg_potassium : string :=
  "पोटाश की कमी - MOP या SOP डालें".
Definition msg_pH_low : string :=
  "मिट्टी में चूना डालें - एसिडिटी कम करने के लिए".
Definition msg_pH_high : string :=
  "जिप्सम का उपयोग करें - क्षारीयता कम करने के लिए".
Definition msg_organic : string :=
  "जैविक खाद बढ़ाएं - गोबर खाद या कंपोस्ट डालें".
Definition msg_urea : string :=
  "Apply urea (46-0-0) at 120-150 kg/hectare".
Definition msg_critical : string :=
  "मिट्टी की स्थिति खराब है - तुरंत सुधार की आवश्यकता".

(** The local variable [healthScore] after the five [if] statements
    (lines 297-317): each statement adds to the value left by the
    previous one. *)
Definition healthScore_var (b : Body) : Z :=
  let healthScore := 0 in
  (* pH score (optimal: 6.0-7.5) *)
  let healthScore :=
    if ge (pH b) 6.0 && le (pH b) 7.5 then healthScore + 20
    else if ge (pH b) 5.5 && le (pH b) 8.0 then healthScore + 15
    else healthScore + 5 in
  (* NPK scores *)
  let healthScore :=
    if ge (nitrogen b) 150 && le (nitrogen b) 300 then healthScore + 20
    else if ge (nitrogen b) 100 then healthScore + 10
    else healthScore in
  let healthScore :=
    if ge (phosphorus b) 15 && le (phosphorus b) 40 then healthScore + 20
    else if ge (phosphorus b) 10 then healthScore + 10
    else healthScore in
  let healthScore :=
    if ge (potassium b) 120 && le (potassium b) 250 then healthScore + 20
    else if ge (potassium b) 80 then healthScore + 10
    else healthScore in
  (* Organic matter score (optimal: >2.5%) *)
  let healthScore :=
    if ge (organicMatter b) 2.5 then healthScore + 20
    else if ge (organicMatter b) 1.5 then healthScore + 15
    else healthScore + 5 in
  healthScore.

(** The array literal of lines 321-328, before [.filter(Boolean)]. *)
Definition recommendations_array (b : Body) : list (option string) :=
  [ if lt (nitrogen b) 150 then Some msg_nitrogen else None;
    if lt (phosphorus b) 15 then Some msg_phosphorus else None;
    if lt (potassium b) 120 then Some msg_potassium else None;
    if lt (pH b) 6.0 then Some msg_pH_low else None;
    if gt (pH b) 8.0 then Some msg_pH_high else None;
    if lt (organicMatter b) 2.0 then Some msg_organic else None;
    Some msg_urea ].

(** The part of the [soilAnalysis] object that depends on the
    measurements; the crop list, the fertilizer texts and the irrigation
    amount and method are literals. *)
Record Analysis : Type := mkAnalysis {
  healthScore : Z;
  recommendations : list string;
  irrigation_frequency : string;
  alerts : list string
}.

Definition soilAnalysis (b : Body) : Analysis :=
  let hs := healthScore_var b in
  {| healthScore := Z.min hs 100;
     recommendations := filter_Boolean (recommendations_array b);
     irrigation_frequency :=
       if lt (moisture b) 20 then "सप्ताह में 3-4 बार"
       else "सप्ताह में 2-3 बार";
     alerts := if hs <? 50 then [msg_critical] else [] |}.

(** What the handler sends.  Destructuring an absent body throws and the
    [catch] block answers 500; with a body of such fields nothing in the
    [try] block throws. *)
Inductive Response : Type :=
| Json200 (a : Analysis)
| Json500 (message : string).

Definition handler (body : option Body) : Response :=
  match body with
  | Some b => Json200 (soilAnalysis b)
  | None => Json500 "Failed to analyze soil data"
  end.

(** A body whose five scored fields are numbers. *)
Definition sample (ph n p k om : float) : Body :=
  {| pH := JNumber ph; nitrogen := JNumber n; phosphorus := JNumber p;
     potassium := JNumber k; organicMatter := JNumber om;
     moisture := JUndefined |}.

End Soil.

(** ** Strings and plain objects, as the weather service uses them *)

Module Str.

(** A JavaScript string is a sequence of UTF-16 code units.  It is kept
    here as the bytes of its UTF-8 form, so that the literals of the source
    are the literals of this file: a character of the basic plane takes one
    to three bytes, a surrogate pair the four bytes of its code point, and
    a surrogate without its partner the three bytes [ED A0..BF 80..BF] that
    the same scheme gives to its number.  Every string has exactly one such
    byte string, and two strings are equal when their bytes are. *)

Definition code (c : ascii) : N := N_of_ascii c.
Definition byte (n : N) : ascii := ascii_of_N n.

Definition is_upper (c : ascii) : bool :=
  (65 <=? nat_of_ascii c)%nat && (nat_of_ascii c <=? 90)%nat.
Definition is_lower (c : ascii) : bool :=
  (97 <=? nat_of_ascii c)%nat && (nat_of_ascii c <=? 122)%nat.
Definition is_digit (c : ascii) : bool :=
  (48 <=? nat_of_ascii c)%nat && (nat_of_ascii c <=? 57)%nat.

Definition lower_char (c : ascii) : ascii :=
  if is_upper c then ascii_of_nat (nat_of_ascii c + 32) else c.
Definition upper_char (c : ascii) : ascii :=
  if is_lower c then ascii_of_nat (nat_of_ascii c - 32) else c.

(** *** Case mapping

    [toLowerCase] and [toUpperCase] follow the case tables of the Unicode
    version the engine is built with.  The tables are no part of this
    development: the two functions are parameters, of which the following
    is assumed.

    - On text in Basic Latin and Devanagari, the two scripts of the keys
      and literals of the program, they change the letters A-Z and a-z and
      nothing else.
    - [toLowerCase] changes nothing in its own result, and gives the empty
      string for the empty string only (a case mapping never deletes a
      character). *)

(** The case mapping of the Basic Latin letters, byte by byte. *)
Fixpoint basic_toLowerCase (s : string) : string :=
  match s with
  | EmptyString => EmptyString
  | String c rest => String (lower_char c) (basic_toLowerCase rest)
  end.

Fixpoint basic_toUpperCase (s : string) : string :=
  match s with
  | EmptyString => EmptyString
  | String c rest => String (upper_char c) (basic_toUpperCase rest)
  end.

(** Text whose characters are all in Basic Latin (one byte below 80) or
    in Devanagari, U+0900 to U+097F (bytes [E0 A4..A5 80..BF]). *)
Fixpoint plain (s : string) : bool :=
  match s with
  | EmptyString => true
  | String c rest =>
      if (code c <? 128)%N then plain rest
      else
        match rest with
        | String c1 (String c2 rest2) =>
            (code c =? 224)%N && ((code c1 =? 164)%N || (code c1 =? 165)%N)
            && (128 <=? code c2)%N && (code c2 <? 192)%N && plain rest2
        | _ => false
        end
  end.

Record CaseMapping : Type := mkCaseMapping {
  toLowerCase : string -> string;       (* s.toLowerCase() *)
  toUpperCase : string -> string;       (* s.toUpperCase() *)
  toLowerCase_plain : forall s, plain s = true -> toLowerCase s = basic_toLowerCase s;
  toUpperCase_plain : forall s, plain s = true -> toUpperCase s = basic_toUpperCase s;
  toLowerCase_again : forall s, toLowerCase (toLowerCase s) = toLowerCase s;
  toLowerCase_kept : forall s, toLowerCase s = EmptyString -> s = EmptyString
}.

(** *** Trimming

    [trim] removes the white space and the line terminators of the
    language from both ends: TAB, LF, VT, FF, CR, SPACE, U+00A0, U+1680,
    U+2000 to U+200A, U+2028, U+2029, U+202F, U+205F, U+3000 and U+FEFF
    (the space separators are those of Unicode 6.3 and later). *)
Definition is_space (c : ascii) : bool :=
  ((9 <=? code c)%N && (code c <=? 13)%N) || (code c =? 32)%N.

(** U+00A0 is [C2 A0]. *)
Definition is_space2 (c0 c1 : ascii) : bool :=
  (code c0 =? 194)%N && (code c1 =? 160)%N.

(** U+1680 is [E1 9A 80]; U+2000 to U+200A are [E2 80 80..8A]; U+2028,
    U+2029 and U+202F are [E2 80 A8], [E2 80 A9] and [E2 80 AF]; U+205F is
    [E2 81 9F]; U+3000 is [E3 80 80]; U+FEFF is [EF BB BF]. *)
Definition is_space3 (c0 c1 c2 : ascii) : bool :=
  let '(n0, n1, n2) := (code c0, code c1, code c2) in
  (((n0 =? 225) && (n1 =? 154) && (n2 =? 128))
  || ((n0 =? 226) && (n1 =? 128)
      && (((128 <=? n2) && (n2 <=? 138)) || (n2 =? 168) || (n2 =? 169) || (n2 =? 175)))
  || ((n0 =? 226) && (n1 =? 129) && (n2 =? 159))
  || ((n0 =? 227) && (n1 =? 128) && (n2 =? 128))
  || ((n0 =? 239) && (n1 =? 187) && (n2 =? 191)))%N.

(** The string without the spaces it starts with.  With [backwards] the
    bytes of each character come last byte first, as they do in a reversed
    string. *)
Fixpoint strip (backwards : bool) (s : string) : string :=
  match s with
  | EmptyString => EmptyString
  | String c rest =>
      if is_space c then strip backwards rest
      else
        match rest with
        | String c1 rest1 =>
            if (if backwards then is_space2 c1 c else is_space2 c c1)
            then strip backwards rest1
            else
              match rest1 with
              | String c2 rest2 =>
                  if (if backwards then is_space3 c2 c1 c else is_space3 c c1 c2)
                  then strip backwards rest2
                  else s
              | EmptyString => s
              end
        | EmptyString => s
        end
  end.

Definition reverse (s : string) : string :=
  string_of_list_ascii (List.rev (list_ascii_of_string s)).

Definition trimStart (s : string) : string := strip false s.

(** A first byte never occurs inside a character, so the bytes of a space
    at the end of a string are that space. *)
Definition trimEnd (s : string) : string := reverse (strip true (reverse s)).

(** [s.trim()] *)
Definition trim (s : string) : string := trimEnd (trimStart s).

(** *** Code units

    [charAt(0)] is the first code unit and [slice(1)] is what follows it.
    A character of four bytes is a surrogate pair: its first code unit is
    the high surrogate and the low surrogate starts the rest. *)

(** The number of bytes of the character that starts with [c]. *)
Definition width (c : ascii) : nat :=
  if (code c <? 224)%N then (if (code c <? 192)%N then 1%nat else 2%nat)
  else if (code c <? 240)%N then 3%nat else 4%nat.

Fixpoint drop (k : nat) (s : string) : string :=
  match k, s with
  | O, _ => s
  | S k', String _ rest => drop k' rest
  | S _, EmptyString => EmptyString
  end.

(** The code point of a character of four bytes. *)
Definition code_point4 (c0 c1 c2 c3 : ascii) : N :=
  ((code c0 mod 8) * 262144 + (code c1 mod 64) * 4096
   + (code c2 mod 64) * 64 + code c3 mod 64)%N.

(** The three bytes of a surrogate, given by its ten bits; [tag] is 160
    for a high surrogate and 176 for a low one. *)
Definition surrogate (tag ten : N) : string :=
  String (byte 237) (String (byte (tag + ten / 64)%N)
    (String (byte (128 + ten mod 64)%N) EmptyString)).

(** The four bytes of a code point above U+FFFF. *)
Definition utf8_4 (cp : N) : string :=
  String (byte (240 + cp / 262144)%N) (String (byte (128 + (cp / 4096) mod 64)%N)
    (String (byte (128 + (cp / 64) mod 64)%N) (String (byte (128 + cp mod 64)%N)
       EmptyString))).

(** [s.charAt(0)] *)
Definition charAt0 (s : string) : string :=
  match s with
  | EmptyString => EmptyString
  | String c0 rest =>
      match rest with
      | String c1 (String c2 (String c3 _)) =>
          if (240 <=? code c0)%N
          then surrogate 160 ((code_point4 c0 c1 c2 c3 - 65536) / 1024)%N
          else substring 0 (width c0) s
      | _ => substring 0 (width c0) s
      end
  end.

(** [s.slice(1)] *)
Definition slice1 (s : string) : string :=
  match s with
  | EmptyString => EmptyString
  | String c0 rest =>
      match rest with
      | String c1 (String c2 (String c3 rest4)) =>
          if (240 <=? code c0)%N
          then surrogate 176 ((code_point4 c0 c1 c2 c3 - 65536) mod 1024)%N ++ rest4
          else drop (width c0) s
      | _ => drop (width c0) s
      end
  end.

(** The ten bits of the surrogate with bytes [ED c1 c2], when [c1] is in
    the range that starts at [tag]. *)
Definition ten_bits (tag : N) (c1 c2 : ascii) : option N :=
  if ((tag <=? code c1) && (code c1 <? tag + 16)
      && (128 <=? code c2) && (code c2 <? 192))%N
  then Some ((code c1 - tag) * 64 + (code c2 - 128))%N
  else None.

(** [a + b]: the code units of [a] followed by those of [b].  When [a]
    ends with a high surrogate and [b] starts with a low one, the two meet
    as a pair. *)
Definition plus (a b : string) : string :=
  match reverse a, b with
  | String a2 (String a1 (String a0 front)), String b0 (String b1 (String b2 rest)) =>
      match (if (code a0 =? 237)%N then ten_bits 160 a1 a2 else None),
            (if (code b0 =? 237)%N then ten_bits 176 b1 b2 else None) with
      | Some high, Some low =>
          reverse front ++ utf8_4 (65536 + high * 1024 + low)%N ++ rest
      | _, _ => a ++ b
      end
  | _, _ => a ++ b
  end.

(** [s.charAt(0).toUpperCase() + s.slice(1)] *)
Definition capitalize (cm : CaseMapping) (s : string) : string :=
  plus (toUpperCase cm (charAt0 s)) (slice1 s).

(** [s.includes(pat)] *)
Definition includes (s pat : string) : bool :=
  match String.index 0 pat s with
  | Some _ => true
  | None => false
  end.

Definition hex_digit (n : nat) : ascii :=
  if (n <? 10)%nat then ascii_of_nat (48 + n) else ascii_of_nat (55 + n).

(** The characters [encodeURIComponent] leaves alone. *)
Definition uri_unreserved (c : ascii) : bool :=
  is_upper c || is_lower c || is_digit c ||
  existsb (Ascii.eqb c) (list_ascii_of_string "-_.!~*'()").

(** The bytes [ED A0..BF] start a surrogate that has no partner. *)
Definition unpaired (c : ascii) (rest : string) : bool :=
  match rest with
  | String c1 _ => (code c =? 237)%N && (160 <=? code c1)%N
  | EmptyString => false
  end.

(** [encodeURIComponent(s)]: every other byte of the UTF-8 form becomes
    [%XX].  On a surrogate without partner it throws a URIError: [None]. *)
Fixpoint encodeURIComponent (s : string) : option string :=
  match s with
  | EmptyString => Some EmptyString
  | String c rest =>
      if unpaired c rest then None
      else
        match encodeURIComponent rest with
        | Some encoded =>
            if uri_unreserved c then Some (String c encoded)
            else
              let n := nat_of_ascii c in
              Some (String "%" (String (hex_digit (n / 16)) (String (hex_digit (n mod 16))
                      encoded)))
        | None => None
        end
  end.

(** [String(n)] for an integer [n]. *)
Definition of_Z (n : Z) : string := NilZero.string_of_int (Z.to_int n).

(** The mapping that changes the Basic Latin letters and nothing else.  It
    obeys what is assumed of a case mapping; the examples, whose strings
    are Basic Latin, are run with it. *)
Definition basic_latin : CaseMapping.
Proof.
  refine (mkCaseMapping basic_toLowerCase basic_toUpperCase
            (fun s _ => eq_refl) (fun s _ => eq_refl) _ _).
  - induction s as [| c rest IH]; cbn [basic_toLowerCase]; [reflexivity |].
    rewrite IH. f_equal.
    destruct c as [[|] [|] [|] [|] [|] [|] [|] [|]]; reflexivity.
  - intros [| c rest]; [reflexivity | discriminate].
Defined.

End Str.

Module Obj.

(** What [obj[key]] yields on an object literal with the given own
    properties: an own value, a member inherited from
    [Object.prototype] (kept as the text [String(member)] gives), or
    [undefined]. *)
Inductive Lookup (A : Type) : Type :=
| Own (a : A)
| Inherited (shown : string)
| Undefined.
Arguments Own {A} a.
Arguments Inherited {A} shown.
Arguments Undefined {A}.

Fixpoint own {A : Type} (props : list (string * A)) (key : string) : option A :=
  match props with
  | [] => None
  | (k, a) :: rest => if String.eqb k key then Some a else own rest key
  end.

Definition prototype_methods : list string :=
  [ "constructor"; "__defineGetter__"; "__defineSetter__"; "hasOwnProperty";
    "__lookupGetter__"; "__lookupSetter__"; "isPrototypeOf";
    "propertyIsEnumerable"; "toString"; "valueOf"; "toLocaleString" ].

Definition method_name (key : string) : string :=
  if String.eqb key "constructor" then "Object" else key.

Definition get {A : Type} (props : list (string * A)) (key : string) : Lookup A :=
  match own props key with
  | Some a => Own a
  | None =>
      if existsb (String.eqb key) prototype_methods
      then Inherited ("function " ++ method_name key ++ "() { [native code] }")
      else if String.eqb key "__proto__" then Inherited "[object Object]"
      else Undefined
  end.

End Obj.

(** ** The weather service *)

Module Weather.
Import Str Obj.
Open Scope Q_scope.

(** *** Number arithmetic

    [Math.random() * 4] is the real product rounded to binary64.  The
    rounding is a function [fl] on the rationals that obeys the standard
    model of round-to-nearest with gradual underflow: a relative error of
    at most [u = 2^-53] plus an absolute error of at most [eta = 2^-1075],
    as long as the argument is below the overflow range, and no change of
    sign. *)
Definition u : Q := Eval vm_compute in (1 # 2 ^ 53).
Definition eta : Q := Eval vm_compute in (1 # 2 ^ 1075).
Definition overflow_range : Q := Eval vm_compute in (inject_Z (2 ^ 1023)).

Record Rounding : Type := mkRounding {
  fl : Q -> Q;
  fl_nonneg : forall x, 0 <= x -> 0 <= fl x;
  fl_error : forall x,
    Qabs x <= overflow_range -> Qabs (fl x - x) <= u * Qabs x + eta
}.

(** The largest binary64 value below 1: no draw of [Math.random()]
    exceeds it. *)
Definition max_draw : Q := 1 - u.

Definition Math_floor (x : Q) : Z := Qfloor x.
(** [Math.round]: the nearest integer, a tie going up. *)
Definition Math_round (x : Q) : Z := Qfloor (x + (1 # 2)).
Definition Qlt_bool (x y : Q) : bool := negb (Qle_bool y x).

(** [arr[i]] for a number [i]. *)
Definition index {A : Type} (arr : list A) (i : Z) : option A :=
  if (i <? 0)%Z then None else nth_error arr (Z.to_nat i).

(** *** Completions

    A computation takes the number of draws already made from
    [Math.random] and either completes normally or throws; [await] of a
    rejected promise throws.  [Thrown error] carries the [message] of the
    error that is thrown, in the wording of V8.  What is thrown inside
    [getCurrentWeather] is caught there by a [catch] that does not read
    it. *)
Inductive Completion (A : Type) : Type :=
| Normal (a : A)
| Thrown (error : string).
Arguments Normal {A} a.
Arguments Thrown {A} error.

Definition M (A : Type) : Type := nat -> Completion A * nat.

Definition ret {A : Type} (a : A) : M A := fun n => (Normal a, n).
Definition throw {A : Type} (error : string) : M A := fun n => (Thrown error, n).
Definition bind {A B : Type} (c : M A) (k : A -> M B) : M B :=
  fun n =>
    match c n with
    | (Normal a, n') => k a n'
    | (Thrown e, n') => (Thrown e, n')
    end.
(** [try { body } catch (e) { handler }] *)
Definition try_catch {A : Type} (body : M A) (handler : string -> M A) : M A :=
  fun n =>
    match body n with
    | (Normal a, n') => (Normal a, n')
    | (Thrown e, n') => handler e n'
    end.

Notation "x <- c1 ;; c2" := (bind c1 (fun x => c2))
  (at level 61, c1 at next level, right associativity).

(** *** The outside world *)

(** The provider's answer, typed by its schema where a part is present;
    a part that is absent is [None], and reading a member of it throws. *)
Record Main : Type := mkMain { temp : Q; main_humidity : Z }.
Record Condition : Type := mkCondition {
  cond_description : option string;     (* [None] is [undefined] *)
  cond_icon : string
}.
Record Sys : Type := mkSys { sys_country : string }.
Record Payload : Type := mkPayload {
  main : option Main;
  weather : option (list Condition);
  wind_speed : option Q;
  rain_1h : option Q;
  name : string;
  sys : option Sys
}.

(** A fetched response: [response.ok], [response.headers.get('content-type')]
    and the outcome of [response.json()] ([None]: the promise rejects). *)
Record Response : Type := mkResponse {
  ok : bool;
  content_type : option string;
  json : option Payload
}.

(** [fetch(url, ...)] resolves with a response or rejects. *)
Inductive Fetched : Type :=
| Rejected
| Resolved (response : Response).

Record World : Type := mkWorld {
  primaryApiKey : option string;         (* process.env.OPENWEATHER_API_KEY *)
  fetch : string -> Fetched;             (* by URL *)
  getMonth : Z;                          (* new Date().getMonth() *)
  random : nat -> Q                      (* the successive values of Math.random() *)
}.

(** *** Readings *)

(** [baseTemp + variation] is a number, or a text when [baseTemp] is an
    inherited member of the table object. *)
Inductive Temperature : Type :=
| TNumber (t : Z)
| TString (s : string).

Record Reading : Type := mkReading {
  temperature : Temperature;
  humidity : Z;
  description : option string;    (* [None] is [undefined] *)
  windSpeed : Z;
  rainfall : Q;
  city : string;
  country : string;
  icon : string;
  source : string
}.

Definition baseUrl : string := "https://api.openweathermap.org/data/2.5".

Definition indianCities : list (string * string) :=
  [ ("mumbai", "Mumbai,IN"); ("delhi", "Delhi,IN"); ("bangalore", "Bangalore,IN");
    ("hyderabad", "Hyderabad,IN"); ("pune", "Pune,IN"); ("kolkata", "Kolkata,IN");
    ("chennai", "Chennai,IN"); ("ahmedabad", "Ahmedabad,IN"); ("jaipur", "Jaipur,IN");
    ("lucknow", "Lucknow,IN"); ("kanpur", "Kanpur,IN"); ("nagpur", "Nagpur,IN");
    ("indore", "Indore,IN"); ("thane", "Thane,IN"); ("bhopal", "Bhopal,IN");
    ("visakhapatnam", "Visakhapatnam,IN") ].

Definition baseTemps : list (string * Z) :=
  [ ("mumbai", 29); ("delhi", 25); ("bangalore", 24); ("hyderabad", 28); ("pune", 26);
    ("kolkata", 27); ("chennai", 30); ("ahmedabad", 32); ("jaipur", 28); ("lucknow", 26);
    ("patna", 26); ("bhopal", 25); ("indore", 27); ("nagpur", 28); ("raipur", 26) ]%Z.

Definition descriptions : list (string * list string) :=
  [ ("winter", ["clear sky"; "few clouds"; "mist"; "haze"]);
    ("summer", ["clear sky"; "scattered clouds"; "haze"; "hot"]);
    ("monsoon", ["light rain"; "moderate rain"; "overcast clouds"; "thunderstorm"]);
    ("postMonsoon", ["clear sky"; "few clouds"; "partly cloudy"]) ].

(** [this.indianCities[normalized] || `${location},IN`], as the text the
    URL is built from. *)
Definition normalizeLocation (cm : CaseMapping) (location : string) : string :=
  let normalized := trim (toLowerCase cm location) in
  match get indianCities normalized with
  | Own canonical => if String.eqb canonical "" then location ++ ",IN" else canonical
  | Inherited shown => shown
  | Undefined => location ++ ",IN"
  end.

(** [baseTemps[normalizedLocation] || 27]: a number, or an inherited
    member of the table object. *)
Inductive BaseTemp : Type :=
| Num (t : Z)
| Member (shown : string).

Definition baseTemp_of (normalizedLocation : string) : BaseTemp :=
  match get baseTemps normalizedLocation with
  | Own t => if (t =? 0)%Z then Num 27 else Num t
  | Inherited shown => Member shown
  | Undefined => Num 27
  end.

(** [baseTemp + variation]: a sum of numbers, or a concatenation. *)
Definition add_variation (baseTemp : BaseTemp) (variation : Z) : Temperature :=
  match baseTemp with
  | Num t => TNumber (t + variation)
  | Member shown => TString (shown ++ of_Z variation)
  end.

Definition season_of (month : Z) : string :=
  if (month >=? 12)%Z || (month <=? 2)%Z then "winter"
  else if (month >=? 6)%Z && (month <=? 9)%Z then "monsoon"
  else if (month >=? 10)%Z && (month <=? 11)%Z then "postMonsoon"
  else "summer".

Section Service.
Variable cm : CaseMapping.
Variable rd : Rounding.
Variable w : World.

Definition Math_random : M Q := fun n => (Normal (random w n), S n).

Definition getSeasonalDescription : M (option string) :=
  let month := (getMonth w + 1)%Z in
  let season := season_of month in
  let seasonDescriptions :=
    match own descriptions season with Some l => l | None => [] end in
  r <- Math_random ;;
  ret (index seasonDescriptions
         (Math_floor (fl rd (r * inject_Z (Z.of_nat (List.length seasonDescriptions)))))).

Definition getReliableWeatherData (location : string) : M Reading :=
  let normalizedLocation := trim (toLowerCase cm location) in
  let baseTemp := baseTemp_of normalizedLocation in
  r1 <- Math_random ;;
  let variation := (Math_floor (fl rd (r1 * 4)) - 2)%Z in  (* -2 to +2 variation *)
  r2 <- Math_random ;;
  seasonal <- getSeasonalDescription ;;
  r4 <- Math_random ;;
  r5 <- Math_random ;;
  rain <- (if Qlt_bool r5 (1 # 4)
           then r6 <- Math_random ;; ret (Math_floor (fl rd (r6 * 3)))
           else ret 0%Z) ;;
  ret {| temperature := add_variation baseTemp variation;
         humidity := (65 + Math_floor (fl rd (r2 * 15)))%Z;   (* 65-80% *)
         description := seasonal;
         windSpeed := (8 + Math_floor (fl rd (r4 * 7)))%Z;    (* 8-15 km/h *)
         rainfall := inject_Z rain;
         city := capitalize cm location;
         country := "IN";
         icon := "01d";
         source := "Climate Database" |}.

(** The value, or an error with the given message when there is none. *)
Definition or_throw {A : Type} (value : option A) (message : string) : M A :=
  match value with
  | Some a => ret a
  | None => throw message
  end.

(** Reading [property] of [part]: a TypeError when the part is absent. *)
Definition member {A : Type} (part : option A) (property : string) : M A :=
  or_throw part ("Cannot read properties of undefined (reading '" ++ property ++ "')").

(** [x || 0] on a number ([None] is NaN or [undefined]). *)
Definition or_zero (x : option Q) : Q :=
  match x with
  | Some v => if Qeq_bool v 0 then 0 else v
  | None => 0
  end.

(** The object literal of lines 44-54. *)
Definition provider_reading (data : Payload) : M Reading :=
  m <- member (main data) "temp" ;;
  conditions <- member (weather data) "0" ;;
  first <- member (index conditions 0) "description" ;;
  s <- member (sys data) "country" ;;
  ret {| temperature := TNumber (Math_round (temp m));
         humidity := main_humidity m;
         description := cond_description first;
         windSpeed :=
           Math_round (or_zero (option_map (fun speed => fl rd (speed * fl rd (36 # 10)))
                                           (wind_speed data)));
         rainfall := or_zero (rain_1h data);
         city := name data;
         country := sys_country s;
         icon := cond_icon first;
         source := "OpenWeatherMap" |}.

Definition await_fetch (url : string) : M Response :=
  match fetch w url with
  | Resolved response => ret response
  | Rejected => throw "fetch failed"
  end.

Definition await_json (response : Response) : M Payload :=
  match json response with
  | Some data => ret data
  | None => throw "Unexpected end of JSON input"
  end.

(** Truthiness of a value that is a string or absent. *)
Definition truthy (s : option string) : bool :=
  match s with
  | Some t => negb (String.eqb t "")
  | None => false
  end.

(** The template literal of line 29; [None] when [encodeURIComponent]
    throws. *)
Definition request_url (normalizedLocation : string) : option string :=
  match encodeURIComponent normalizedLocation with
  | Some q =>
      Some (baseUrl ++ "/weather?q=" ++ q ++ "&appid="
              ++ match primaryApiKey w with Some k => k | None => "undefined" end
              ++ "&units=metric")
  | None => None
  end.

(** The inner [if (this.primaryApiKey) { try ... catch ... }]: [Some r]
    when it returns [r], [None] when control leaves it. *)
Definition try_provider (normalizedLocation : string) : M (option Reading) :=
  if truthy (primaryApiKey w) then
    try_catch
      (url <- or_throw (request_url normalizedLocation) "URI malformed" ;;
       response <- await_fetch url ;;
       if ok response then
         let contentType := content_type response in
         if truthy contentType &&
            match contentType with
            | Some t => includes t "application/json"
            | None => false
            end
         then
           data <- await_json response ;;
           reading <- provider_reading data ;;
           ret (Some reading)
         else ret None
       else ret None)
      (fun primaryError => ret None)
  else ret None.

Definition getCurrentWeather (location : string) : M Reading :=
  try_catch
    (let normalizedLocation := normalizeLocation cm location in
     returned <- try_provider normalizedLocation ;;
     match returned with
     | Some reading => ret reading
     | None => getReliableWeatherData location
     end)
    (fun error => getReliableWeatherData location).

End Service.

(** A call on a fresh run: no draw has been made yet. *)
Definition resolve (cm : CaseMapping) (rd : Rounding) (w : World) (location : string) :
  Completion Reading :=
  fst (getCurrentWeather cm rd w location 0%nat).

Definition synthetic (cm : CaseMapping) (rd : Rounding) (w : World) (location : string) :
  Completion Reading :=
  fst (getReliableWeatherData cm rd w location 0%nat).

(** Every draw lies in [0,1): it is at most the largest binary64 value
    below 1. *)
Definition unit_draws (w : World) : Prop :=
  forall n : nat, 0 <= random w n /\ random w n <= max_draw.

(** The failures of the provider path: no credential, a location the
    request cannot be written for, a rejected request, a status outside
    2xx, a content type that is not JSON.  The request is the one for the
    URL that the code builds from the location. *)
Inductive UpstreamFailure (cm : CaseMapping) (w : World) (location : string) : Prop :=
| credential_absent :
    truthy (primaryApiKey w) = false ->
    UpstreamFailure cm w location
| malformed_location :
    request_url w (normalizeLocation cm location) = None ->
    UpstreamFailure cm w location
| network_error (url : string) :
    request_url w (normalizeLocation cm location) = Some url ->
    fetch w url = Rejected ->
    UpstreamFailure cm w location
| non_2xx_status (url : string) (response : Response) :
    request_url w (normalizeLocation cm location) = Some url ->
    fetch w url = Resolved response ->
    ok response = false ->
    UpstreamFailure cm w location
| non_JSON_content_type (url : string) (response : Response) :
    request_url w (normalizeLocation cm location) = Some url ->
    fetch w url = Resolved response ->
    match content_type response with
    | Some t => includes t "application/json"
    | None => false
    end = false ->
    UpstreamFailure cm w location.

(** Rounding that changes nothing obeys the model. *)
Definition exact_rounding : Rounding.
Proof.
  refine (mkRounding (fun x => x) (fun x H => H) _).
  intros x _.
  setoid_replace (x - x) with 0 by ring.
  pose proof (Qabs_nonneg x) as Hx.
  change (Qabs 0) with 0. unfold u, eta. lra.
Defined.

(** A world whose requests all have the same outcome and whose draws all
    have the same value. *)
Definition steady (key : option string) (outcome : Fetched) (month : Z) (r : Q) : World :=
  {| primaryApiKey := key;
     fetch := fun _ => outcome;
     getMonth := month;
     random := fun _ => r |}.

(** A provider answer for Pune. *)
Definition pune_payload : Payload :=
  {| main := Some {| temp := 264 # 10; main_humidity := 58 |};
     weather := Some [ {| cond_description := Some "broken clouds"; cond_icon := "04d" |} ];
     wind_speed := Some (25 # 10);
     rain_1h := None;
     name := "Pune";
     sys := Some {| sys_country := "IN" |} |}.

Definition pune_response : Response :=
  {| ok := true;
     content_type := Some "application/json; charset=utf-8";
     json := Some pune_payload |}.

End Weather.

(** ** The scoring table and the flag conditions, as the specification
    words them *)

Module SoilSpec.
Import JS Soil.

(** A closed band [lo]-[hi] and an open-ended band [>= lo]. *)
Definition within (lo hi : float) (v : jsval) : bool := ge v lo && le v hi.
Definition at_least (lo : float) (v : jsval) : bool := ge v lo.

Definition pH_points (v : jsval) : Z :=
  if within 6.0 7.5 v then 20 else if within 5.5 8.0 v then 15 else 5.
Definition nitrogen_points (v : jsval) : Z :=
  if within 150 300 v then 20 else if at_least 100 v then 10 else 0.
Definition phosphorus_points (v : jsval) : Z :=
  if within 15 40 v then 20 else if at_least 10 v then 10 else 0.
Definition potassium_points (v : jsval) : Z :=
  if within 120 250 v then 20 else if at_least 80 v then 10 else 0.
Definition organicMatter_points (v : jsval) : Z :=
  if at_least 2.5 v then 20 else if at_least 1.5 v then 15 else 5.

Definition total_points (b : Body) : Z :=
  pH_points (pH b) + nitrogen_points (nitrogen b) + phosphorus_points (phosphorus b)
  + potassium_points (potassium b) + organicMatter_points (organicMatter b).

(** The six "needs improvement" conditions with their advisories, in the
    order nitrogen, phosphorus, potassium, pH low, pH high, organic
    matter. *)
Definition conditions : list ((Body -> bool) * string) :=
  [ (fun b => lt (nitrogen b) 150, msg_nitrogen);
    (fun b => lt (phosphorus b) 15, msg_phosphorus);
    (fun b => lt (potassium b) 120, msg_potassium);
    (fun b => lt (pH b) 6.0, msg_pH_low);
    (fun b => gt (pH b) 8.0, msg_pH_high);
    (fun b => lt (organicMatter b) 2.0, msg_organic) ].

(** One advisory per triggered condition, and nothing else. *)
Definition triggered_advisories (b : Body) : list string :=
  map snd (filter (fun c => fst c b) conditions).


(** The same as a test: match the head of [l] at its first occurrence. *)
Fixpoint in_order (l fixed : list string) : bool :=
  match fixed, l with
  | _, [] => true
  | [], _ :: _ => false
  | x :: fixed', y :: l' =>
      if String.eqb x y then in_order l' fixed' else in_order l fixed'
  end.

(** No entry of [l] occurs twice. *)
Fixpoint distinct (l : list string) : bool :=
  match l with
  | [] => true
  | x :: rest => negb (existsb (String.eqb x) rest) && distinct rest
  end.


(** The order of the array literal, with its closing general entry. *)
Definition array_order : list string :=
  [ msg_nitrogen; msg_phosphorus; msg_potassium; msg_pH_low; msg_pH_high;
    msg_organic; msg_urea ].

(** Every scored field inside its best band. *)
Definition optimal (b : Body) : Prop :=
  within 6.0 7.5 (pH b) = true /\
  within 150 300 (nitrogen b) = true /\
  within 15 40 (phosphorus b) = true /\
  within 120 250 (potassium b) = true /\
  at_least 2.5 (organicMatter b) = true.

(** The example sample of section 8. *)
Definition ideal : Body := sample 6.8 200 25 150 3.0.

(** A body with no field at all. *)
Definition empty_body : Body :=
  mkBody JUndefined JUndefined JUndefined JUndefined JUndefined JUndefined.

End SoilSpec.

(** ** The order of binary64 values

    Comparisons of primitive floats are specified on [spec_float] by
    [SFcompare].  [key] places a value in that order: its class (negative
    or positive infinity, negative or positive finite, zero), then its
    exponent, then its mantissa; NaN has no place. *)

Module FloatOrder.

Definition key (f : spec_float) : option (Z * Z * Z) :=
  match f with
  | S754_nan => None
  | S754_infinity true => Some (-2, 0, 0)
  | S754_infinity false => Some (2, 0, 0)
  | S754_zero _ => Some (0, 0, 0)
  | S754_finite true m e => Some (-1, - e, Zneg m)
  | S754_finite false m e => Some (1, e, Zpos m)
  end.

Definition lex_compare (a b : Z * Z * Z) : comparison :=
  let '(a1, a2, a3) := a in
  let '(b1, b2, b3) := b in
  match a1 ?= b1 with
  | Eq => match a2 ?= b2 with Eq => a3 ?= b3 | c => c end
  | c => c
  end.

Definition lex_lt (a b : Z * Z * Z) : Prop :=
  let '(a1, a2, a3) := a in
  let '(b1, b2, b3) := b in
  a1 < b1 \/ (a1 = b1 /\ (a2 < b2 \/ (a2 = b2 /\ a3 < b3))).

Definition lex_le (a b : Z * Z * Z) : Prop :=
  let '(a1, a2, a3) := a in
  let '(b1, b2, b3) := b in
  a1 < b1 \/ (a1 = b1 /\ (a2 < b2 \/ (a2 = b2 /\ a3 <= b3))).

Definition fkey (x : float) : option (Z * Z * Z) := key (Prim2SF x).

(** [x] is not NaN. *)
Definition is_number (x : float) : Prop := (x =? x)%float = true.

(** Every scored field of a soil body holds a number (not NaN). *)
Definition all_numbers (b : Soil.Body) : Prop :=
  is_number (JS.ToNumber (Soil.pH b)) /\ is_number (JS.ToNumber (Soil.nitrogen b)) /\
  is_number (JS.ToNumber (Soil.phosphorus b)) /\ is_number (JS.ToNumber (Soil.potassium b)) /\
  is_number (JS.ToNumber (Soil.organicMatter b)).

End FloatOrder.

(** ** When the provider's answer is used *)

Module Provider.
Import Str Weather.


End Provider.

(** ** The advisory helpers of the weather service and the weather route *)

Module Advisory.
Import Str Obj Weather.
Open Scope Q_scope.

Definition hot_hi : string :=
  "उच्च तापमान चेतावनी। फसलों को छाया प्रदान करें और सिंचाई की आवृत्ति बढ़ाएं।".
Definition hot_en : string :=
  "High temperature alert. Provide shade cover for crops and increase irrigation frequency.".
Definition warm_hi : string :=
  "गर्म मौसम। दिन के गर्म समय में सिंचाई से बचें, सुबह या शाम को पानी दें।".
Definition warm_en : string :=
  "Warm weather. Avoid irrigation during hot hours, water in early morning or evening.".
Definition cool_hi : string :=
  "ठंडा मौसम। संवेदनशील फसलों को पाले से बचाएं।".
Definition cool_en : string :=
  "Cool weather. Protect sensitive crops from potential frost damage.".
Definition humid_hi : string :=
  "अधिक नमी से फंगल रोग का खतरा। फसलों की नियमित निगरानी करें।".
Definition humid_en : string :=
  "High humidity increases fungal disease risk. Monitor crops closely for symptoms.".
Definition dry_hi : string :=
  "कम नमी। पौधों के तनाव से बचने के लिए सिंचाई बढ़ाएं।".
Definition dry_en : string :=
  "Low humidity detected. Increase irrigation to prevent plant water stress.".
Definition rain_hi : string :=
  "भारी बारिश की संभावना। जल निकासी की व्यवस्था सुनिश्चित करें।".
Definition rain_en : string :=
  "Heavy rainfall expected. Ensure proper field drainage to prevent waterlogging.".
Definition clear_hi : string :=
  "साफ मौसम। छिड़काव और खेती के कार्य के लिए अच्छा समय।".
Definition clear_en : string :=
  "Clear weather ideal for spraying operations and field activities.".

(** [temperature > c] and [temperature < c].  A [TString] temperature is
    the text of an inherited member followed by the variation; it is no
    numeral, so it compares as NaN. *)
Definition temperature_gt (t : Temperature) (c : Z) : bool :=
  match t with
  | TNumber n => (c <? n)%Z
  | TString _ => false
  end.
Definition temperature_lt (t : Temperature) (c : Z) : bool :=
  match t with
  | TNumber n => (n <? c)%Z
  | TString _ => false
  end.

(** The messages of the two TypeErrors that reach the [catch] block of the
    weather route. *)
Definition undefined_includes : string :=
  "Cannot read properties of undefined (reading 'includes')".
Definition not_a_function (name : string) : string :=
  "weatherService." ++ name ++ " is not a function".

(** [getAgriculturalInsights(weather, state)]; [state] is not read.
    [description.includes] throws when the description is [undefined]. *)
Definition getAgriculturalInsights (weather : Reading) : Completion (list string) :=
  let insights : list string := [] in
  (* Temperature-based insights with Indian farming context *)
  let insights :=
    if temperature_gt (temperature weather) 35 then (insights ++ [hot_hi; hot_en])%list
    else if temperature_gt (temperature weather) 30 then (insights ++ [warm_hi; warm_en])%list
    else if temperature_lt (temperature weather) 15 then (insights ++ [cool_hi; cool_en])%list
    else insights in
  (* Humidity-based insights *)
  let insights :=
    if (80 <? humidity weather)%Z then (insights ++ [humid_hi; humid_en])%list
    else if (humidity weather <? 40)%Z then (insights ++ [dry_hi; dry_en])%list
    else insights in
  (* Rainfall and weather condition insights *)
  if Qlt_bool 10 (rainfall weather) then Normal (insights ++ [rain_hi; rain_en])%list
  else if Qlt_bool (rainfall weather) 1 then
    match description weather with
    | Some d =>
        if includes d "clear" then Normal (insights ++ [clear_hi; clear_en])%list
        else Normal insights
    | None => Thrown undefined_includes
    end
  else Normal insights.

Definition kharif : string := "Kharif crops recommended: Rice, Cotton, Sugarcane, Maize".
Definition paddy : string := "Good monsoon conditions for paddy cultivation".
Definition rabi : string := "Rabi crops recommended: Wheat, Barley, Peas, Mustard".
Definition winter_ideal : string := "Ideal temperature conditions for winter crops".
Definition zaid : string := "Zaid crops recommended: Fodder crops, Vegetables with irrigation".

(** [getCropRecommendations(weather, state)], with [month] the value of
    [new Date().getMonth()]. *)
Definition getCropRecommendations (month : Z) (weather : Reading) : list string :=
  let recommendations : list string := [] in
  (* Season-based recommendations *)
  if (month >=? 5)%Z && (month <=? 8)%Z then   (* Monsoon season *)
    let recommendations := (recommendations ++ [kharif])%list in
    if Qlt_bool 5 (rainfall weather) then (recommendations ++ [paddy])%list
    else recommendations
  else if (month >=? 10)%Z || (month <=? 2)%Z then   (* Winter season *)
    let recommendations := (recommendations ++ [rabi])%list in
    if temperature_lt (temperature weather) 25 then (recommendations ++ [winter_ideal])%list
    else recommendations
  else   (* Summer season *)
    (recommendations ++ [zaid])%list.



(** What [GET /api/weather/:location] sends: the 200 answer with its
    computed parts (the other parts are literals), or the 500 answer. *)
Inductive RouteResponse : Type :=
| Weather200 (current : Reading) (insights recommendations : list string)
             (message : string)
| Weather500 (message error : string).

(** The members the class [WeatherService] declares. *)
Definition WeatherService_members : list string :=
  [ "primaryApiKey"; "baseUrl"; "indianCities"; "normalizeLocation";
    "getCurrentWeather"; "getReliableWeatherData"; "getSeasonalDescription";
    "getAgriculturalInsights"; "getCropRecommendations" ].

(** [weatherService.<name>(...)] for a method that takes no draw and
    returns [result] when the object has it: calling a name the object does
    not have throws a TypeError, whose message names the call. *)
Definition call_method {A : Type} (name : string) (result : Completion A) : M A :=
  match get (map (fun m => (m, tt)) WeatherService_members) name with
  | Own _ =>
      match result with
      | Normal a => ret a
      | Thrown e => throw e
      end
  | Inherited _ | Undefined =>
      throw (not_a_function name)
  end.

Section Route.
Variable cm : CaseMapping.
Variable rd : Rounding.
Variable w : World.

(** The handler of [GET /api/weather/:location] (lines 115-150).  The
    class has no [getPestDiseaseAlert]; what such a method would return
    is never reached, and is left empty here.  The [catch] block sends
    [error.message]. *)
Definition weather_route_body (location : string) : M RouteResponse :=
  weatherData <- getCurrentWeather cm rd w location ;;
  insights <- call_method "getAgriculturalInsights" (getAgriculturalInsights weatherData) ;;
  recommendations <- call_method "getCropRecommendations"
                       (Normal (getCropRecommendations (getMonth w) weatherData)) ;;
  pestAlerts <- call_method "getPestDiseaseAlert" (Normal (@nil string)) ;;
  ret (Weather200 weatherData insights recommendations
         ("Real weather data for " ++ location)).

Definition weather_route (location : string) : Completion RouteResponse :=
  fst (try_catch (weather_route_body location)
         (fun error => ret (Weather500 "Failed to fetch weather data" error)) 0%nat).

End Route.

End Advisory.

(** ** Request bodies and number helpers of the other routes *)

Module Request.
Import Obj.

(** A field of a parsed JSON body.  [Absent] is a field the body does not
    have ([undefined]).  A string comes with the number ToNumber gives for
    it.  An array or object converts to a primitive through its
    [toString]: it is [Composite key number], with the property key it
    converts to and the number ToNumber gives for it, or it is [Opaque]
    when the conversion throws a TypeError, as it does for an object that
    has a property [toString] of its own (no JSON value is a function). *)
Inductive Field : Type :=
| Absent
| Null
| Bool (b : bool)
| Number (x : float)
| Text (s : string) (number : float)
| Composite (key : string) (number : float)
| Opaque.

(** [!!f] *)
Definition truthy (f : Field) : bool :=
  match f with
  | Absent | Null => false
  | Bool b => b
  | Number x => negb (x =? 0)%float && (x =? x)%float
  | Text s _ => negb (String.eqb s "")
  | Composite _ _ | Opaque => true
  end.

(** ECMAScript ToNumber; [None] when it throws. *)
Definition ToNumber (f : Field) : option float :=
  match f with
  | Absent => Some nan
  | Null => Some 0%float
  | Bool true => Some 1%float
  | Bool false => Some 0%float
  | Number x => Some x
  | Text _ number => Some number
  | Composite _ number => Some number
  | Opaque => None
  end.

(** [f === 'text'] *)
Definition is_text (f : Field) (text : string) : bool :=
  match f with
  | Text s _ => String.eqb s text
  | _ => false
  end.

(** [const { f = 'text' } = req.body]: the default replaces [undefined]
    only. *)
Definition default (f : Field) (text : string) : Field :=
  match f with
  | Absent => Text text nan
  | _ => f
  end.

(** [obj[f]] on an object literal whose property names are words: the key
    of a number is a numeral (or [NaN], [Infinity]), which names no
    property, own or inherited.  [None] when the conversion of [f] to a
    property key throws. *)
Definition lookup {A : Type} (props : list (string * A)) (f : Field) : option (Lookup A) :=
  match f with
  | Absent => Some (get props "undefined")
  | Null => Some (get props "null")
  | Bool true => Some (get props "true")
  | Bool false => Some (get props "false")
  | Number _ => Some Undefined
  | Text s _ => Some (get props s)
  | Composite key _ => Some (get props key)
  | Opaque => None
  end.

End Request.

Module Num.

(** The float of an integer below 2^53 in size. *)
Definition float_of_Z (z : Z) : float :=
  if z <? 0 then (- of_uint63 (Uint63.of_Z (- z)))%float
  else of_uint63 (Uint63.of_Z z).

(** [Math.round(x)]: the integer nearest to [x], a tie going up, computed
    on the mantissa and exponent of [x]; a value with a non-negative
    exponent is an integer already, and NaN, the infinities and the zeros
    are returned as they are. *)
Definition Math_round (x : float) : float :=
  match Prim2SF x with
  | S754_finite s m e =>
      if 0 <=? e then x
      else
        let d := 2 ^ (- e) in
        let n := if s then Zneg m else Zpos m in
        let r := (2 * n + d) / (2 * d) in
        if (r =? 0) && s then neg_zero else float_of_Z r
  | _ => x
  end.


End Num.

(** ** The price-negotiation route *)

Module Negotiation.
Import Str Obj Request Num.

Record Body : Type := mkBody {
  crop : Field;
  quantity : Field;
  quality : Field;
  location : Field;
  marketType : Field
}.

Definition basePrices : list (string * float) :=
  [ ("गेहूं", 30); ("wheat", 30);
    ("धान", 25); ("rice", 25);
    ("टमाटर", 45); ("tomato", 45);
    ("प्याज", 35); ("onion", 35);
    ("कपास", 55); ("cotton", 55) ]%float.

(** A looked-up price as the operand of [||] and of the multiplication
    that follows: an own price, NaN for an inherited member (which is
    truthy), nothing when the operand is falsy. *)
Definition price_operand (found : Lookup float) : option float :=
  match found with
  | Own p => if (p =? 0)%float || negb (p =? p)%float then None else Some p
  | Inherited _ => Some nan
  | Undefined => None
  end.

(** [basePrices[crop] || basePrices[crop.toLowerCase()] || 32]; [None]
    when it throws: the conversion of [crop] to a property key does, or
    [crop.toLowerCase] is not a function. *)
Definition basePrice_of (cm : CaseMapping) (crop : Field) : option float :=
  match lookup basePrices crop with
  | None => None
  | Some found =>
      match price_operand found with
      | Some p => Some p
      | None =>
          match crop with
          | Text s _ =>
              match price_operand (get basePrices (toLowerCase cm s)) with
              | Some p => Some p
              | None => Some 32%float
              end
          | _ => None
          end
      end
  end.

Record Strategy : Type := mkStrategy {
  recommendedPrice : float;
  minAcceptablePrice : float;
  maxNegotiationPrice : float
}.

Record MarketAnalysis : Type := mkMarketAnalysis {
  analysed_crop : Field;
  requestedQuantity : Field;
  estimatedValue : float;
  qualityGrade : Field;
  analysed_marketType : Field
}.

(** What the handler sends; the tactics, advantages, timing and market
    lists of the strategy are literals. *)
Inductive Response : Type :=
| Json200 (negotiationStrategy : Strategy) (marketAnalysis : MarketAnalysis)
| Json400 (message : string)
| Json500 (message : string).

Definition qualityMultiplier (quality : Field) : float :=
  if is_text quality "premium" then 1.15%float
  else if is_text quality "basic" then 0.9%float
  else 1.0%float.

(** The handler (lines 215-289).  Whatever throws in the [try] block
    (the look-up of the price, the call of [toLowerCase], the product
    [recommendedPrice * quantity]) ends in the [catch] block, which
    answers 500. *)
Definition handler (cm : CaseMapping) (body : option Body) : Response :=
  match body with
  | None => Json500 "Failed to generate negotiation strategy"
  | Some b =>
      let quality := default (quality b) "standard" in
      let marketType := default (marketType b) "local" in
      if negb (truthy (crop b)) || negb (truthy (quantity b)) then
        Json400 "Crop type and quantity are required"
      else
        match basePrice_of cm (crop b) with
        | None => Json500 "Failed to generate negotiation strategy"
        | Some basePrice =>
            let recommendedPrice := Math_round (basePrice * qualityMultiplier quality)%float in
            let negotiationStrategy :=
              {| recommendedPrice := recommendedPrice;
                 minAcceptablePrice := Math_round (recommendedPrice * 0.88)%float;
                 maxNegotiationPrice := Math_round (recommendedPrice * 1.1)%float |} in
            match ToNumber (quantity b) with
            | None => Json500 "Failed to generate negotiation strategy"
            | Some quantity_number =>
                Json200 negotiationStrategy
                  {| analysed_crop := crop b;
                     requestedQuantity := quantity b;
                     estimatedValue := (recommendedPrice * quantity_number)%float;
                     qualityGrade := quality;
                     analysed_marketType := marketType |}
            end
        end
  end.

(** The crop, or its lower-case form when the crop itself is no property,
    names a member of [Object.prototype]. *)
Definition names_member (cm : CaseMapping) (s : string) : bool :=
  match get basePrices s with
  | Inherited _ => true
  | Own _ => false
  | Undefined =>
      match get basePrices (toLowerCase cm s) with
      | Inherited _ => true
      | _ => false
      end
  end.

Definition strategy_of (response : Response) : option Strategy :=
  match response with
  | Json200 strategy _ => Some strategy
  | _ => None
  end.

(** The body with another crop. *)
Definition with_crop (b : Body) (c : Field) : Body :=
  {| crop := c; quantity := quantity b; quality := quality b;
     location := location b; marketType := marketType b |}.


End Negotiation.

(** ** The farmer question-and-answer route *)

Module FarmerQA.
Import Obj Request.

Record Body : Type := mkBody {
  question : Field;
  language : Field;
  category : Field;
  context : Field
}.

Definition hindi_responses : list (string * string) :=
  [ ("pest", "कीट नियंत्रण के लिए नीम का तेल या बायो-पेस्टिसाइड का उपयोग करें। रासायनिक दवा से बचें।");
    ("irrigation", "दिन में दो बार पानी दें - सुबह और शाम। मिट्टी की नमी चेक करते रहें।");
    ("market", "आज गेहूं का भाव ₹2,850 प्रति क्विंटल है। अगले महीने कीमत बढ़ने की संभावना है।");
    ("general", "आपके प्रश्न के अनुसार, वर्तमान मौसम में धान की खेती अच्छी होगी। उचित खाद और सिंचाई का ध्यान रखें।") ].

Definition english_responses : list (string * string) :=
  [ ("pest", "Use neem oil or bio-pesticides for pest control. Avoid chemical pesticides when possible.");
    ("irrigation", "Water twice daily - morning and evening. Monitor soil moisture regularly.");
    ("market", "Today's wheat price is ₹2,850 per quintal. Prices expected to rise next month.");
    ("general", "Based on your question, paddy cultivation will be good this season. Maintain proper fertilizer and irrigation.") ].

Definition hindi_relatedQuestions : list string :=
  [ "मिट्टी की जांच कैसे करें?"; "बीज का चुनाव कैसे करें?"; "खाद कब डालें?" ].
Definition english_relatedQuestions : list string :=
  [ "How to test soil?"; "How to select seeds?"; "When to apply fertilizer?" ].
Definition hindi_actionItems : list string :=
  [ "मिट्टी की नमी चेक करें"; "मौसम का पूर्वानुमान देखें"; "बाज़ार भाव की जानकारी लें" ].
Definition english_actionItems : list string :=
  [ "Check soil moisture"; "Monitor weather forecast"; "Track market prices" ].

(** The answer: a text of the table, or an inherited member of the table
    object (a function or object, which is truthy). *)
Inductive Answer : Type :=
| AnswerText (text : string)
| AnswerMember (shown : string).

(** [table[key] || table.general]; [None] when the conversion of [key]
    to a property key throws. *)
Definition answer_of (table : list (string * string)) (key : Field) : option Answer :=
  let general :=
    match own table "general" with
    | Some text => AnswerText text
    | None => AnswerText "undefined"
    end in
  match lookup table key with
  | Some (Own text) => Some (if String.eqb text "" then general else AnswerText text)
  | Some (Inherited shown) => Some (AnswerMember shown)
  | Some Undefined => Some general
  | None => None
  end.

(** The computed parts of the reply; confidence, sources and government
    schemes are literals. *)
Record Reply : Type := mkReply {
  answer : Answer;
  relatedQuestions : list string;
  actionItems : list string
}.

Inductive Response : Type :=
| Json200 (reply : Reply)
| Json400 (message : string)
| Json500 (message : string).

(** [typeof f !== 'string'] *)
Definition not_a_string (f : Field) : bool :=
  match f with
  | Text _ _ => false
  | _ => true
  end.

(** The handler (lines 153-212).  The look-up of the answer is the one
    step of the [try] block that can throw; the [catch] block answers
    500. *)
Definition handler (body : option Body) : Response :=
  match body with
  | None => Json500 "Failed to process question"
  | Some b =>
      let language := default (language b) "hindi" in
      if negb (truthy (question b)) || not_a_string (question b) then
        Json400 "Question is required"
      else
        let lang := if is_text language "hindi" then hindi_responses else english_responses in
        let responseCategory :=
          if truthy (category b) then category b else Text "general" nan in
        match answer_of lang responseCategory with
        | None => Json500 "Failed to process question"
        | Some answer =>
            Json200
              {| answer := answer;
                 relatedQuestions :=
                   List.concat [ if is_text language "hindi" then hindi_relatedQuestions
                            else english_relatedQuestions ];
                 actionItems :=
                   List.concat [ if is_text language "hindi" then hindi_actionItems
                            else english_actionItems ] |}
        end
  end.

(** The request asks for Hindi: the language is ['hindi'] or is missing. *)
Definition asks_hindi (b : Body) : bool :=
  match language b with
  | Absent => true
  | Text s _ => String.eqb s "hindi"
  | _ => false
  end.

(** The category names one of the four answers. *)
Definition names_answer (key : Field) : bool :=
  match lookup hindi_responses key with
  | Some (Own _) => true
  | _ => false
  end.

(** The category names a member of [Object.prototype]. *)
Definition names_member (key : Field) : bool :=
  match lookup hindi_responses key with
  | Some (Inherited _) => true
  | _ => false
  end.

End FarmerQA.

(** * Properties of the soil-analysis route *)

Section SoilFacts.
Import JS Soil SoilSpec.

(** The five [if] statements add the five table entries. *)
Lemma healthScore_var_total (b : Body) : healthScore_var b = total_points b.
Proof.
  unfold healthScore_var, total_points, pH_points, nitrogen_points,
    phosphorus_points, potassium_points, organicMatter_points, within, at_least.
  repeat match goal with
         | |- context [if ?c then _ else _] => destruct c
         end; reflexivity.
Qed.

Lemma pH_points_range (v : jsval) : 5 <= pH_points v <= 20.
Proof.
  unfold pH_points.
  destruct (within 6.0 7.5 v); [lia|]. destruct (within 5.5 8.0 v); lia.
Qed.

Lemma organicMatter_points_range (v : jsval) : 5 <= organicMatter_points v <= 20.
Proof.
  unfold organicMatter_points.
  destruct (at_least 2.5 v); [lia|]. destruct (at_least 1.5 v); lia.
Qed.

Lemma nitrogen_points_range (v : jsval) : 0 <= nitrogen_points v <= 20.
Proof.
  unfold nitrogen_points.
  destruct (within 150 300 v); [lia|]. destruct (at_least 100 v); lia.
Qed.

Lemma phosphorus_points_range (v : jsval) : 0 <= phosphorus_points v <= 20.
Proof.
  unfold phosphorus_points.
  destruct (within 15 40 v); [lia|]. destruct (at_least 10 v); lia.
Qed.

Lemma potassium_points_range (v : jsval) : 0 <= potassium_points v <= 20.
Proof.
  unfold potassium_points.
  destruct (within 120 250 v); [lia|]. destruct (at_least 80 v); lia.
Qed.

Lemma healthScore_var_range (b : Body) : 10 <= healthScore_var b <= 100.
Proof.
  rewrite healthScore_var_total. unfold total_points.
  pose proof (pH_points_range (pH b)).
  pose proof (nitrogen_points_range (nitrogen b)).
  pose proof (phosphorus_points_range (phosphorus b)).
  pose proof (potassium_points_range (potassium b)).
  pose proof (organicMatter_points_range (organicMatter b)).
  lia.
Qed.

(** The filtered array is the triggered advisories followed by the
    general entry. *)
Lemma recommendations_shape (b : Body) :
  recommendations (soilAnalysis b) = (triggered_advisories b ++ [msg_urea])%list.
Proof.
  unfold soilAnalysis, recommendations_array, triggered_advisories, conditions.
  cbn [recommendations filter map fst snd].
  destruct (lt (nitrogen b) 150), (lt (phosphorus b) 15), (lt (potassium b) 120),
    (lt (pH b) 6.0), (gt (pH b) 8.0), (lt (organicMatter b) 2.0);
    reflexivity.
Qed.

(** C1: the returned health score is the sum of the five tiered
    contributions of the scoring table, each looked up on its own field,
    capped at 100; and a value on a band boundary scores in the more
    favourable band (all lower ends of the best bands, all their upper
    ends, and both ends of the second bands). *)
Theorem healthScore_is_capped_sum_of_bands :
  (forall b : Body, healthScore (soilAnalysis b) = Z.min (total_points b) 100) /\
  healthScore (soilAnalysis (sample 6.0 150 15 120 2.5)) = 20 + 20 + 20 + 20 + 20 /\
  healthScore (soilAnalysis (sample 7.5 300 40 250 2.5)) = 20 + 20 + 20 + 20 + 20 /\
  healthScore (soilAnalysis (sample 5.5 100 10 80 1.5)) = 15 + 10 + 10 + 10 + 15 /\
  healthScore (soilAnalysis (sample 8.0 100 10 80 1.5)) = 15 + 10 + 10 + 10 + 15.
Proof.
  split.
  - intro b. unfold soilAnalysis. cbn [healthScore].
    now rewrite healthScore_var_total.
  - repeat split; reflexivity.
Qed.

(** C7: for every body the route answers with an analysis whose health
    score lies between 0 and 100, whatever the fields hold (numbers in or
    out of range, or nothing). *)
Theorem healthScore_between_0_and_100 (b : Body) :
  exists a : Analysis,
    handler (Some b) = Json200 a /\ 0 <= healthScore a <= 100.
Proof.
  exists (soilAnalysis b). split; [reflexivity |].
  unfold soilAnalysis. cbn [healthScore].
  pose proof (healthScore_var_range b). lia.
Qed.

(** C10: the returned health score is at least 10, because the pH and
    the organic-matter criteria give at least 5 each; so it is never 0.
    A body with no field scores exactly 10. *)
Theorem healthScore_at_least_10 :
  (forall b : Body,
      5 <= pH_points (pH b) /\ 5 <= organicMatter_points (organicMatter b) /\
      10 <= healthScore (soilAnalysis b) /\ healthScore (soilAnalysis b) <> 0) /\
  healthScore (soilAnalysis empty_body) = 10.
Proof.
  split; [|reflexivity].
  intro b. unfold soilAnalysis. cbn [healthScore].
  pose proof (healthScore_var_range b).
  pose proof (pH_points_range (pH b)).
  pose proof (organicMatter_points_range (organicMatter b)).
  lia.
Qed.

(** C8: the result carries the critical-condition alert exactly when the
    returned health score is below 50. *)
Theorem critical_alert_iff_below_50 (b : Body) :
  In msg_critical (alerts (soilAnalysis b)) <-> healthScore (soilAnalysis b) < 50.
Proof.
  unfold soilAnalysis. cbn [alerts healthScore].
  destruct (Z.ltb_spec (healthScore_var b) 50) as [Hlt | Hge].
  - split; [lia | intros _; left; reflexivity].
  - split; [intros [] | lia].
Qed.

Lemma existsb_eqb_In (x : string) (l : list string) :
  existsb (String.eqb x) l = false -> ~ In x l.
Proof.
  intros Hex Hin.
  assert (existsb (String.eqb x) l = true) as Htrue.
  { apply existsb_exists. exists x. split; [exact Hin | apply String.eqb_refl]. }
  congruence.
Qed.



Lemma distinct_NoDup (l : list string) : distinct l = true -> NoDup l.
Proof.
  induction l as [| x rest IH]; cbn [distinct]; intro H.
  - constructor.
  - apply andb_true_iff in H as [Hx Hrest].
    constructor; [| now apply IH].
    apply existsb_eqb_In. now apply negb_true_iff.
Qed.

(** Whatever the six conditions answer, the entries are pairwise
    distinct, follow the order of the array literal, and the critical
    text is not among them. *)
Lemma recommendations_checks (b : Body) :
  distinct (recommendations (soilAnalysis b)) = true /\
  in_order (recommendations (soilAnalysis b)) array_order = true /\
  in_order (recommendations (soilAnalysis b) ++ [msg_critical])
           (array_order ++ [msg_critical]) = true /\
  in_order (recommendations (soilAnalysis b)) (array_order ++ [msg_critical]) = true /\
  existsb (String.eqb msg_critical) (recommendations (soilAnalysis b)) = false.
Proof.
  rewrite recommendations_shape.
  unfold triggered_advisories, conditions. cbn [filter map fst snd].
  destruct (lt (nitrogen b) 150), (lt (phosphorus b) 15), (lt (potassium b) 120),
    (lt (pH b) 6.0), (gt (pH b) 8.0), (lt (organicMatter b) 2.0);
    vm_compute; repeat split.
Qed.

(** C2, as stated, fails on the ideal sample: no condition is triggered,
    yet the list is not empty. *)
Lemma recommendations_not_only_triggered :
  triggered_advisories ideal = [] /\
  recommendations (soilAnalysis ideal) <> triggered_advisories ideal.
Proof. split; [reflexivity | vm_compute; discriminate]. Qed.

(** C2 (amended): the recommendation list holds one advisory per
    triggered condition among nitrogen<150, phosphorus<15, potassium<120,
    pH<6.0, pH>8.0, organicMatter<2.0, in that order, followed by the
    general urea entry that is always present; no entry occurs twice. *)
Theorem recommendations_are_triggered_then_urea (b : Body) :
  recommendations (soilAnalysis b) = (triggered_advisories b ++ [msg_urea])%list /\
  NoDup (recommendations (soilAnalysis b)).
Proof.
  split.
  - apply recommendations_shape.
  - apply distinct_NoDup, recommendations_checks.
Qed.



(** C6, as stated, fails in its example: the ideal sample does not get
    an empty list. *)
Lemma ideal_sample_list_not_empty :
  recommendations (soilAnalysis ideal) <> [].
Proof. vm_compute. discriminate. Qed.

(** C6 (amended): a sample with pH in [6.0,7.5], nitrogen in [150,300],
    phosphorus in [15,40], potassium in [120,250] and organic matter at
    least 2.5 gets health score 100; in particular the sample pH=6.8,
    N=200, P=25, K=150, organicMatter=3.0 gets 100, no alert, and a
    recommendation list that holds the general urea entry only. *)
Theorem optimal_sample_scores_100 :
  (forall b : Body, optimal b -> healthScore (soilAnalysis b) = 100) /\
  healthScore (soilAnalysis ideal) = 100 /\
  recommendations (soilAnalysis ideal) = [msg_urea] /\
  alerts (soilAnalysis ideal) = [].
Proof.
  split; [| repeat split].
  intros b (HpH & Hn & Hp & Hk & Hom).
  unfold soilAnalysis. cbn [healthScore]. rewrite healthScore_var_total.
  unfold total_points, pH_points, nitrogen_points, phosphorus_points,
    potassium_points, organicMatter_points.
  rewrite HpH, Hn, Hp, Hk, Hom. reflexivity.
Qed.

Lemma optimal_sample_scores_100_witness :
  optimal ideal /\ healthScore (soilAnalysis ideal) = 100.
Proof.
  assert (optimal ideal) as H by (repeat split).
  split; [exact H | exact (proj1 optimal_sample_scores_100 ideal H)].
Defined.

End SoilFacts.

(** * Properties of the weather service *)

Section WeatherFacts.
Import Str Obj Weather.
Open Scope Q_scope.

Variable cm : CaseMapping.
Variable rd : Rounding.

(** ** Floors of rounded products *)

Lemma floor_between (y : Q) (j : Z) :
  inject_Z j <= y -> y < inject_Z (j + 1) -> Math_floor y = j.
Proof.
  intros Hlo Hhi. unfold Math_floor.
  pose proof (Qfloor_le y) as Hfl. pose proof (Qlt_floor y) as Hlt.
  assert (inject_Z j < inject_Z (Qfloor y + 1)) as H1 by (eapply Qle_lt_trans; eauto).
  assert (inject_Z (Qfloor y) < inject_Z (j + 1)) as H2 by (eapply Qle_lt_trans; eauto).
  rewrite <- Zlt_Qlt in H1, H2. lia.
Qed.

Lemma floor_range (y : Q) (k : Z) :
  0 <= y -> y < inject_Z k -> (0 <= Math_floor y <= k - 1)%Z.
Proof.
  intros Hlo Hhi. unfold Math_floor. split.
  - change 0%Z with (Qfloor 0). now apply Qfloor_resp_le.
  - pose proof (Qfloor_le y) as Hfl.
    assert (inject_Z (Qfloor y) < inject_Z k) as H by (eapply Qle_lt_trans; eauto).
    rewrite <- Zlt_Qlt in H. lia.
Qed.

(** The error bound, for the small non-negative arguments met here. *)
Lemma fl_bounds (x : Q) :
  0 <= x -> x <= 16 ->
  x - u * x - eta <= fl rd x /\ fl rd x <= x + u * x + eta.
Proof.
  intros Hlo Hhi.
  assert (Qabs x <= overflow_range) as Hrange.
  { rewrite (Qabs_pos x Hlo). unfold overflow_range. lra. }
  pose proof (fl_error rd x Hrange) as Herr.
  rewrite (Qabs_pos x Hlo) in Herr.
  apply Qabs_Qle_condition in Herr. destruct Herr as [H1 H2].
  split; lra.
Qed.

(** A draw scaled by [k] and floored is one of 0, ..., k-1: the rounding
    never lifts the product to [k]. *)
Lemma floor_scaled_draw (r : Q) (k : Z) :
  (1 <= k <= 16)%Z -> 0 <= r -> r <= max_draw ->
  (0 <= Math_floor (fl rd (r * inject_Z k)) <= k - 1)%Z.
Proof.
  intros [Hk1 Hk16] Hr0 Hr1.
  assert (1 <= inject_Z k) as HK1 by (change 1 with (inject_Z 1); now rewrite <- Zle_Qle).
  assert (inject_Z k <= 16) as HK16 by (change 16 with (inject_Z 16); now rewrite <- Zle_Qle).
  set (K := inject_Z k) in *.
  assert (0 <= r * K) as Hx0 by (apply Qmult_le_0_compat; lra).
  assert (r * K <= max_draw * K) as Hx1 by (apply Qmult_le_compat_r; lra).
  unfold max_draw in Hx1.
  assert (r * K <= 16) as Hx16 by (unfold u in Hx1; lra).
  destruct (fl_bounds (r * K) Hx0 Hx16) as [_ Hup].
  apply floor_range.
  - now apply fl_nonneg.
  - fold K. set (x := r * K) in *. clearbody x K. unfold u, eta in *. lra.
Qed.

(** At the largest draw the floor is [k-1]. *)
Lemma floor_scaled_top_draw (k : Z) :
  (1 <= k <= 16)%Z -> Math_floor (fl rd (max_draw * inject_Z k)) = (k - 1)%Z.
Proof.
  intros [Hk1 Hk16].
  assert (1 <= inject_Z k) as HK1 by (change 1 with (inject_Z 1); now rewrite <- Zle_Qle).
  assert (inject_Z k <= 16) as HK16 by (change 16 with (inject_Z 16); now rewrite <- Zle_Qle).
  assert (inject_Z (k - 1 + 1) == inject_Z k) as Hk by (now replace (k - 1 + 1)%Z with k by lia).
  assert (inject_Z (k - 1) == inject_Z k - 1) as Hk'.
  { unfold Z.sub. rewrite inject_Z_plus. reflexivity. }
  set (K := inject_Z k) in *.
  assert (0 <= max_draw * K) as Hx0 by (unfold max_draw, u; lra).
  assert (max_draw * K <= 16) as Hx16 by (unfold max_draw, u; lra).
  destruct (fl_bounds (max_draw * K) Hx0 Hx16) as [Hlo Hup].
  apply floor_between.
  - rewrite Hk'. clearbody K. unfold max_draw, u, eta in *. lra.
  - rewrite Hk. clearbody K. unfold max_draw, u, eta in *. lra.
Qed.

(** ** The synthetic generator *)

(** The generator completes normally; its reading is determined field by
    field by the draws it takes, in the order variation, humidity,
    description, wind speed, rainfall. *)
Lemma getReliableWeatherData_fields (w : World) (location : string) (n : nat) :
  exists (r : Reading) (n' : nat),
    getReliableWeatherData cm rd w location n = (Normal r, n') /\
    temperature r =
      add_variation (baseTemp_of (trim (toLowerCase cm location)))
                    (Math_floor (fl rd (random w n * 4)) - 2) /\
    humidity r = (65 + Math_floor (fl rd (random w (1 + n) * 15)))%Z /\
    windSpeed r = (8 + Math_floor (fl rd (random w (3 + n) * 7)))%Z /\
    rainfall r =
      inject_Z (if Qlt_bool (random w (4 + n)) (1 # 4)
                then Math_floor (fl rd (random w (5 + n) * 3)) else 0%Z) /\
    city r = capitalize cm location /\
    country r = "IN" /\ icon r = "01d" /\ source r = "Climate Database".
Proof.
  unfold getReliableWeatherData, getSeasonalDescription, bind, Math_random, ret.
  cbn [Nat.add].
  destruct (Qlt_bool (random w (S (S (S (S n))))) (1 # 4));
    do 2 eexists; (split; [reflexivity | cbn; repeat split]).
Qed.

(** The description is an entry of the list of the season of the current
    month: the index never leaves the list. *)
Lemma getSeasonalDescription_in_season (w : World) (n : nat) :
  unit_draws w ->
  exists (d : string) (l : list string),
    getSeasonalDescription rd w n = (Normal (Some d), S n) /\
    own descriptions (season_of (getMonth w + 1)) = Some l /\ In d l.
Proof.
  intro Hdraws. destruct (Hdraws n) as [Hr0 Hr1].
  unfold getSeasonalDescription, bind, Math_random, ret.
  pose proof (floor_scaled_draw (random w n) 4 ltac:(lia) Hr0 Hr1) as H4.
  pose proof (floor_scaled_draw (random w n) 3 ltac:(lia) Hr0 Hr1) as H3.
  unfold season_of.
  destruct ((getMonth w + 1 >=? 12)%Z || (getMonth w + 1 <=? 2)%Z);
    [| destruct ((getMonth w + 1 >=? 6)%Z && (getMonth w + 1 <=? 9)%Z);
       [| destruct ((getMonth w + 1 >=? 10)%Z && (getMonth w + 1 <=? 11)%Z)]];
    cbn [own descriptions String.eqb Ascii.eqb Bool.eqb List.length Z.of_nat
         Pos.of_succ_nat Pos.succ];
    match goal with
    | |- context [index ?l (Math_floor (fl rd (_ * inject_Z ?k)))] =>
        first [ change (inject_Z k) with (inject_Z 4);
                set (i := Math_floor (fl rd (random w n * inject_Z 4))) in *;
                assert (i = 0 \/ i = 1 \/ i = 2 \/ i = 3)%Z
                  as [-> | [-> | [-> | ->]]] by lia
              | change (inject_Z k) with (inject_Z 3);
                set (i := Math_floor (fl rd (random w n * inject_Z 3))) in *;
                assert (i = 0 \/ i = 1 \/ i = 2)%Z as [-> | [-> | ->]] by lia ];
        do 2 eexists; (split; [reflexivity | split; [reflexivity | cbn; tauto]])
    end.
Qed.

(** C4: for every run of the synthetic generator on draws in [0,1)
    and a city whose base temperature is [base], the temperature is
    [base] plus a perturbation that stays in [-2,+1]: for mumbai it ranges
    over [27,30] and 31 is out of reach; the humidity stays in [65,79],
    the wind speed in [8,14], and the rainfall is 0, 1 or 2.  The upper
    ends +2, 80 and 15 that the comments in the generator announce are
    never produced. *)
Theorem synthetic_reading_ranges (w : World) (location : string) (base : Z) :
  unit_draws w ->
  baseTemp_of (trim (toLowerCase cm location)) = Num base ->
  exists r,
    synthetic cm rd w location = Normal r /\
    (exists t, temperature r = TNumber t /\ (base - 2 <= t <= base + 1)%Z) /\
    (65 <= humidity r <= 79)%Z /\
    (8 <= windSpeed r <= 14)%Z /\
    (exists mm, rainfall r = inject_Z mm /\ (0 <= mm <= 2)%Z).
Proof.
  intros Hdraws Hbase. unfold synthetic.
  destruct (getReliableWeatherData_fields w location 0%nat)
    as (r & n' & -> & Htemp & Hhum & Hwind & Hrain & _).
  exists r. split; [reflexivity |].
  pose proof (floor_scaled_draw (random w 0%nat) 4 ltac:(lia)
                (proj1 (Hdraws _)) (proj2 (Hdraws _))) as H4.
  pose proof (floor_scaled_draw (random w 1%nat) 15 ltac:(lia)
                (proj1 (Hdraws _)) (proj2 (Hdraws _))) as H15.
  pose proof (floor_scaled_draw (random w 3%nat) 7 ltac:(lia)
                (proj1 (Hdraws _)) (proj2 (Hdraws _))) as H7.
  pose proof (floor_scaled_draw (random w 5%nat) 3 ltac:(lia)
                (proj1 (Hdraws _)) (proj2 (Hdraws _))) as H3.
  change (inject_Z 4) with 4 in H4. change (inject_Z 15) with 15 in H15.
  change (inject_Z 7) with 7 in H7. change (inject_Z 3) with 3 in H3.
  cbn [Nat.add] in *.
  repeat split.
  - rewrite Htemp, Hbase. cbn [add_variation]. eexists. split; [reflexivity | lia].
  - rewrite Hhum. lia.
  - rewrite Hhum. lia.
  - rewrite Hwind. lia.
  - rewrite Hwind. lia.
  - rewrite Hrain. destruct (Qlt_bool _ _); eexists; (split; [reflexivity | lia]).
Qed.

(** The base temperature of mumbai, whatever the engine's case tables. *)
Lemma baseTemp_of_mumbai : baseTemp_of (trim (toLowerCase cm "mumbai")) = Num 29.
Proof. now rewrite (toLowerCase_plain cm "mumbai" eq_refl). Qed.

(** At the largest draw the generator gives the largest values it can
    give: for mumbai 30 degrees, 79 percent, 14 km/h. *)
Lemma synthetic_mumbai_top_draw (key : option string) (outcome : Fetched) (month : Z) :
  exists r,
    synthetic cm rd (steady key outcome month max_draw) "mumbai" = Normal r /\
    temperature r = TNumber 30 /\ humidity r = 79%Z /\ windSpeed r = 14%Z /\
    rainfall r = 0.
Proof.
  unfold synthetic.
  destruct (getReliableWeatherData_fields (steady key outcome month max_draw) "mumbai" 0%nat)
    as (r & n' & -> & Htemp & Hhum & Hwind & Hrain & _).
  exists r. split; [reflexivity |].
  cbn [steady random] in *.
  pose proof (floor_scaled_top_draw 4 ltac:(lia)) as H4.
  pose proof (floor_scaled_top_draw 15 ltac:(lia)) as H15.
  pose proof (floor_scaled_top_draw 7 ltac:(lia)) as H7.
  change (inject_Z 4) with 4 in H4. change (inject_Z 15) with 15 in H15.
  change (inject_Z 7) with 7 in H7.
  rewrite H4, baseTemp_of_mumbai in Htemp. rewrite H15 in Hhum. rewrite H7 in Hwind.
  repeat split; assumption.
Qed.

(** A draw in the middle of the [j]-th quarter gives the perturbation
    [j - 2]. *)
Lemma floor_quarter_draw (j : Z) :
  (0 <= j <= 3)%Z ->
  Math_floor (fl rd (((2 * j + 1) # 8) * 4)) = j.
Proof.
  intro Hj.
  assert (j = 0 \/ j = 1 \/ j = 2 \/ j = 3)%Z as [-> | [-> | [-> | ->]]] by lia;
    cbn [Z.mul Z.add Pos.mul Pos.add];
    match goal with
    | |- Math_floor (fl rd ?x) = _ =>
        destruct (fl_bounds x ltac:(lra) ltac:(lra)) as [Hlo Hup];
        apply floor_between
    end;
    match goal with
    | |- context [inject_Z ?z] =>
        let v := eval vm_compute in (inject_Z z) in change (inject_Z z) with v
    end;
    unfold u, eta in *; lra.
Qed.

(** Every perturbation from -2 to +1 is produced by some draw, so for
    mumbai each of 27, 28, 29, 30 is a possible temperature. *)
Lemma synthetic_mumbai_attains (key : option string) (outcome : Fetched) (month : Z)
      (t : Z) :
  (27 <= t <= 30)%Z ->
  exists (w : World) (r : Reading),
    unit_draws w /\ synthetic cm rd w "mumbai" = Normal r /\ temperature r = TNumber t.
Proof.
  intro Ht.
  exists (steady key outcome month ((2 * (t - 27) + 1) # 8)).
  unfold synthetic.
  destruct (getReliableWeatherData_fields
              (steady key outcome month ((2 * (t - 27) + 1) # 8)) "mumbai" 0%nat)
    as (r & n' & -> & Htemp & _).
  exists r. split; [| split; [reflexivity |]].
  - intro n. cbn [steady random]. unfold max_draw, u.
    assert (t = 27 \/ t = 28 \/ t = 29 \/ t = 30)%Z as [-> | [-> | [-> | ->]]] by lia;
      split; apply Qle_bool_imp_le; reflexivity.
  - cbn [steady random] in Htemp.
    rewrite (floor_quarter_draw (t - 27) ltac:(lia)) in Htemp.
    rewrite Htemp.
    rewrite baseTemp_of_mumbai.
    cbn [add_variation]. f_equal. lia.
Qed.

(** ** The resolver *)

(** The provider path never throws out of its [try] and takes no draw;
    what it returns, if anything, is tagged as the provider's. *)
Lemma try_provider_completes (w : World) (normalizedLocation : string) (n : nat) :
  exists returned : option Reading,
    try_provider rd w normalizedLocation n = (Normal returned, n) /\
    forall r, returned = Some r -> source r = "OpenWeatherMap".
Proof.
  unfold try_provider.
  destruct (truthy (primaryApiKey w)); [| exists None; split; [reflexivity | discriminate]].
  unfold try_catch, await_fetch, await_json, provider_reading, member, or_throw, bind,
    ret, throw.
  destruct (request_url w normalizedLocation) as [url |];
    [| exists None; split; [reflexivity | discriminate]].
  destruct (fetch w url) as [| response]; [exists None; split; [reflexivity | discriminate] |].
  destruct (ok response); [| exists None; split; [reflexivity | discriminate]].
  destruct (truthy (content_type response) && _);
    [| exists None; split; [reflexivity | discriminate]].
  destruct (json response) as [data |]; [| exists None; split; [reflexivity | discriminate]].
  destruct (main data); [| exists None; split; [reflexivity | discriminate]].
  destruct (weather data) as [conditions |];
    [| exists None; split; [reflexivity | discriminate]].
  destruct (index conditions 0); [| exists None; split; [reflexivity | discriminate]].
  destruct (sys data); [| exists None; split; [reflexivity | discriminate]].
  eexists. split; [reflexivity |]. intros r [= <-]. reflexivity.
Qed.

(** In each failure case control leaves the provider path without a
    reading. *)
Lemma try_provider_failure (w : World) (location : string) (n : nat) :
  UpstreamFailure cm w location ->
  try_provider rd w (normalizeLocation cm location) n = (Normal None, n).
Proof.
  unfold try_provider.
  intros [Hkey | Hurl | url Hurl Hfetch | url response Hurl Hfetch Hok
          | url response Hurl Hfetch Htype].
  - now rewrite Hkey.
  - destruct (truthy (primaryApiKey w)); [| reflexivity].
    unfold try_catch, bind, or_throw, throw. now rewrite Hurl.
  - destruct (truthy (primaryApiKey w)); [| reflexivity].
    unfold try_catch, bind, or_throw, ret, await_fetch. now rewrite Hurl, Hfetch.
  - destruct (truthy (primaryApiKey w)); [| reflexivity].
    unfold try_catch, bind, or_throw, await_fetch, ret. now rewrite Hurl, Hfetch, Hok.
  - destruct (truthy (primaryApiKey w)); [| reflexivity].
    unfold try_catch, bind, or_throw, await_fetch, ret. rewrite Hurl, Hfetch, Htype.
    rewrite andb_false_r. now destruct (ok response).
Qed.

Lemma getCurrentWeather_cases (w : World) (location : string) (n : nat) :
  (exists r, getCurrentWeather cm rd w location n = (Normal r, n)
             /\ source r = "OpenWeatherMap") \/
  getCurrentWeather cm rd w location n = getReliableWeatherData cm rd w location n.
Proof.
  unfold getCurrentWeather, try_catch, bind.
  destruct (try_provider_completes w (normalizeLocation cm location) n)
    as ([r |] & -> & Hsource).
  - left. exists r. split; [reflexivity | now apply Hsource].
  - right.
    destruct (getReliableWeatherData_fields w location n) as (r & n' & -> & _).
    reflexivity.
Qed.

(** After a failure of the provider path the reading is the synthetic
    one, whose city, country, icon and source do not depend on the
    draws. *)
Lemma resolve_after_failure (w : World) (location : string) :
  UpstreamFailure cm w location ->
  exists r, resolve cm rd w location = Normal r /\
            (city r = capitalize cm location /\ country r = "IN" /\
             icon r = "01d" /\ source r = "Climate Database").
Proof.
  intro Hfail. unfold resolve, getCurrentWeather, try_catch, bind.
  rewrite (try_provider_failure w location 0%nat Hfail).
  destruct (getReliableWeatherData_fields w location 0%nat)
    as (r & n' & -> & _ & _ & _ & _ & Hcity & Hcountry & Hicon & Hsource).
  exists r. cbn [fst]. repeat split; assumption.
Qed.

(** C3: for every location and every upstream outcome the resolver
    returns a reading and does not raise; when the credential is absent,
    the request for the URL of the location is rejected, its status is not
    2xx or its content type is not JSON (or no URL can be written for the
    location), the reading is the synthetic one, tagged "Climate
    Database". *)
Theorem getCurrentWeather_never_raises (w : World) (location : string) :
  (exists r, resolve cm rd w location = Normal r) /\
  (UpstreamFailure cm w location ->
   resolve cm rd w location = synthetic cm rd w location /\
   exists r, resolve cm rd w location = Normal r /\ source r = "Climate Database").
Proof.
  unfold resolve, synthetic.
  destruct (getReliableWeatherData_fields w location 0%nat)
    as (r & n' & Hsyn & _ & _ & _ & _ & _ & _ & _ & Hsource).
  split.
  - destruct (getCurrentWeather_cases w location 0%nat) as [(r' & -> & _) | ->].
    + now exists r'.
    + rewrite Hsyn. now exists r.
  - intro Hfail.
    assert (getCurrentWeather cm rd w location 0%nat = getReliableWeatherData cm rd w location 0%nat) as ->.
    { unfold getCurrentWeather, try_catch, bind.
      rewrite (try_provider_failure w location 0%nat Hfail). now rewrite Hsyn. }
    split; [reflexivity |]. rewrite Hsyn. now exists r.
Qed.

(** C9: two runs for the same location with no credential configured,
    whatever the draws, the month and the network do in each, return
    readings with the same city, country and source (and icon); only
    temperature, humidity, wind speed, rainfall and description are left
    to vary. *)
Theorem resolve_without_credential_agrees (w1 w2 : World) (location : string) :
  truthy (primaryApiKey w1) = false ->
  truthy (primaryApiKey w2) = false ->
  exists r1 r2,
    resolve cm rd w1 location = Normal r1 /\
    resolve cm rd w2 location = Normal r2 /\
    city r1 = city r2 /\ country r1 = country r2 /\ source r1 = source r2 /\
    icon r1 = icon r2.
Proof.
  intros Hkey1 Hkey2.
  destruct (resolve_after_failure w1 location (credential_absent _ _ _ Hkey1))
    as (r1 & H1 & Hf1).
  destruct (resolve_after_failure w2 location (credential_absent _ _ _ Hkey2))
    as (r2 & H2 & Hf2).
  exists r1, r2. split; [exact H1 |]. split; [exact H2 |].
  destruct Hf1 as (-> & -> & -> & ->), Hf2 as (-> & -> & -> & ->). repeat split.
Qed.

End WeatherFacts.

(** * The resolver on concrete worlds *)

Section WeatherExamples.
Import Str Obj Weather.
Open Scope Q_scope.

Example resolve_mumbai_offline :
  resolve basic_latin exact_rounding (steady None Rejected 6 (1 # 2)) "mumbai"
  = Normal {| temperature := TNumber 29; humidity := 72;
              description := Some "overcast clouds"; windSpeed := 11;
              rainfall := 0; city := "Mumbai"; country := "IN"; icon := "01d";
              source := "Climate Database" |}.
Proof. reflexivity. Qed.

Example resolve_pune_online :
  resolve basic_latin exact_rounding (steady (Some "k") (Resolved pune_response) 6 (1 # 2)) "pune"
  = Normal {| temperature := TNumber 26; humidity := 58;
              description := Some "broken clouds"; windSpeed := 9;
              rainfall := 0; city := "Pune"; country := "IN"; icon := "04d";
              source := "OpenWeatherMap" |}.
Proof. reflexivity. Qed.

(** A body that is JSON by its header but lacks [main] makes the object
    literal throw; the inner [catch] swallows it. *)
Example resolve_pune_truncated_body :
  exists r,
    resolve basic_latin exact_rounding
      (steady (Some "k")
         (Resolved {| ok := true; content_type := Some "application/json";
                      json := Some {| main := None; weather := None; wind_speed := None;
                                      rain_1h := None; name := "Pune"; sys := None |} |})
         6 (1 # 2)) "pune" = Normal r /\
    source r = "Climate Database".
Proof. eexists. split; reflexivity. Qed.

(** Two runs without credential can differ in temperature. *)
Example resolve_runs_differ_in_temperature :
  exists r1 r2,
    resolve basic_latin exact_rounding (steady None Rejected 6 (1 # 8)) "mumbai" = Normal r1 /\
    resolve basic_latin exact_rounding (steady None Rejected 6 (7 # 8)) "mumbai" = Normal r2 /\
    temperature r1 = TNumber 27 /\ temperature r2 = TNumber 30.
Proof. do 2 eexists. repeat split. Qed.

(** The table object also answers for the names it inherits. *)
Example resolve_inherited_key :
  exists r,
    resolve basic_latin exact_rounding (steady None Rejected 6 (1 # 2)) "constructor" = Normal r /\
    temperature r = TString "function Object() { [native code] }0".
Proof. eexists. split; reflexivity. Qed.

Lemma getCurrentWeather_never_raises_witness :
  UpstreamFailure basic_latin (steady (Some "k") Rejected 6 (1 # 2)) "mumbai" /\
  exists r,
    resolve basic_latin exact_rounding (steady (Some "k") Rejected 6 (1 # 2)) "mumbai" = Normal r /\
    source r = "Climate Database".
Proof.
  assert (UpstreamFailure basic_latin (steady (Some "k") Rejected 6 (1 # 2)) "mumbai") as H
    by (eapply network_error; reflexivity).
  split; [exact H |].
  exact (proj2 (proj2 (getCurrentWeather_never_raises basic_latin exact_rounding _ _) H)).
Defined.

Lemma resolve_without_credential_agrees_witness :
  exists r1 r2,
    resolve basic_latin exact_rounding (steady None Rejected 0 (1 # 8)) "mumbai" = Normal r1 /\
    resolve basic_latin exact_rounding (steady (Some "") (Resolved pune_response) 6 (7 # 8)) "mumbai"
    = Normal r2 /\
    city r1 = city r2 /\ country r1 = country r2 /\ source r1 = source r2 /\
    icon r1 = icon r2.
Proof.
  apply (resolve_without_credential_agrees basic_latin exact_rounding
           (steady None Rejected 0 (1 # 8))
           (steady (Some "") (Resolved pune_response) 6 (7 # 8)) "mumbai");
    reflexivity.
Defined.

Lemma synthetic_reading_ranges_witness :
  exists r,
    synthetic basic_latin exact_rounding (steady None Rejected 6 max_draw) "mumbai" = Normal r /\
    (exists t, temperature r = TNumber t /\ (29 - 2 <= t <= 29 + 1)%Z) /\
    (65 <= humidity r <= 79)%Z /\
    (8 <= windSpeed r <= 14)%Z /\
    (exists mm, rainfall r = inject_Z mm /\ (0 <= mm <= 2)%Z).
Proof.
  apply (synthetic_reading_ranges basic_latin exact_rounding (steady None Rejected 6 max_draw)
           "mumbai" 29).
  - intro n. split; apply Qle_bool_imp_le; reflexivity.
  - reflexivity.
Defined.

End WeatherExamples.


(** * The order of binary64 values *)

Section FloatOrderFacts.
Import FloatOrder.

Lemma SFcompare_key (a b : spec_float) :
  SFcompare a b =
  match key a, key b with
  | Some ka, Some kb => Some (lex_compare ka kb)
  | _, _ => None
  end.
Proof.
  destruct a as [[|] | [|] | | [|] m1 e1], b as [[|] | [|] | | [|] m2 e2];
    try reflexivity; cbn [SFcompare key lex_compare]; f_equal.
  change (-1 ?= -1) with Eq. cbv iota.
  rewrite Z.compare_opp, (Z.compare_antisym e1 e2).
  destruct (e1 ?= e2); reflexivity.
Qed.

Lemma lex_compare_Lt (a b : Z * Z * Z) : lex_compare a b = Lt <-> lex_lt a b.
Proof.
  destruct a as [[a1 a2] a3], b as [[b1 b2] b3]. cbn [lex_compare lex_lt].
  destruct (Z.compare_spec a1 b1) as [E1 | E1 | E1];
    [destruct (Z.compare_spec a2 b2) as [E2 | E2 | E2];
     [destruct (Z.compare_spec a3 b3) as [E3 | E3 | E3] | |] | |];
    split; intro H; try discriminate; try reflexivity; lia.
Qed.

Lemma lex_compare_not_Gt (a b : Z * Z * Z) : lex_compare a b <> Gt <-> lex_le a b.
Proof.
  destruct a as [[a1 a2] a3], b as [[b1 b2] b3]. cbn [lex_compare lex_le].
  destruct (Z.compare_spec a1 b1) as [E1 | E1 | E1];
    [destruct (Z.compare_spec a2 b2) as [E2 | E2 | E2];
     [destruct (Z.compare_spec a3 b3) as [E3 | E3 | E3] | |] | |];
    split; intro H; try discriminate; try congruence; lia.
Qed.

(** [x < y] holds when both have a place and the place of [x] is lower. *)
Lemma ltb_key (x y : float) :
  (x <? y)%float = true <->
  exists a b, fkey x = Some a /\ fkey y = Some b /\ lex_lt a b.
Proof.
  rewrite ltb_spec. unfold SFltb, fkey. rewrite SFcompare_key.
  destruct (key (Prim2SF x)) as [a |], (key (Prim2SF y)) as [b |];
    try (split; [discriminate | intros (? & ? & ? & ? & _); discriminate]).
  split.
  - intro H. exists a, b. repeat split. apply lex_compare_Lt.
    destruct (lex_compare a b); congruence.
  - intros (a' & b' & [= <-] & [= <-] & H). apply lex_compare_Lt in H. now rewrite H.
Qed.

Lemma leb_key (x y : float) :
  (x <=? y)%float = true <->
  exists a b, fkey x = Some a /\ fkey y = Some b /\ lex_le a b.
Proof.
  rewrite leb_spec. unfold SFleb, fkey. rewrite SFcompare_key.
  destruct (key (Prim2SF x)) as [a |], (key (Prim2SF y)) as [b |];
    try (split; [discriminate | intros (? & ? & ? & ? & _); discriminate]).
  split.
  - intro H. exists a, b. repeat split. apply lex_compare_not_Gt.
    destruct (lex_compare a b); congruence.
  - intros (a' & b' & [= <-] & [= <-] & H). apply lex_compare_not_Gt in H.
    destruct (lex_compare a b); congruence.
Qed.

Lemma is_number_key (x : float) : is_number x -> exists a, fkey x = Some a.
Proof.
  unfold is_number, fkey. rewrite eqb_spec. unfold SFeqb. rewrite SFcompare_key.
  destruct (key (Prim2SF x)); [eauto | discriminate].
Qed.

Lemma leb_trans (x y z : float) :
  (x <=? y)%float = true -> (y <=? z)%float = true -> (x <=? z)%float = true.
Proof.
  rewrite !leb_key.
  intros (a & b & Ha & Hb & Hab) (b' & c & Hb' & Hc & Hbc).
  rewrite Hb in Hb'. injection Hb' as <-.
  exists a, c. repeat split; try assumption.
  destruct a as [[a1 a2] a3], b as [[b1 b2] b3], c as [[c1 c2] c3].
  cbn [lex_le] in *. lia.
Qed.

Lemma leb_not_ltb (x y : float) :
  (x <=? y)%float = true -> (y <? x)%float = false.
Proof.
  intro H. apply not_true_is_false. intro H'. revert H H'.
  rewrite leb_key, ltb_key.
  intros (a & b & Ha & Hb & Hab) (b' & a' & Hb' & Ha' & Hba).
  rewrite Ha in Ha'. rewrite Hb in Hb'. injection Ha' as <-. injection Hb' as <-.
  destruct a as [[a1 a2] a3], b as [[b1 b2] b3].
  cbn [lex_le lex_lt] in *. lia.
Qed.

(** Two numbers are comparable. *)
Lemma not_ltb_leb (x y : float) :
  is_number x -> is_number y ->
  (x <? y)%float = false -> (y <=? x)%float = true.
Proof.
  intros Hx Hy H.
  destruct (is_number_key x Hx) as [a Ha], (is_number_key y Hy) as [b Hb].
  apply leb_key. exists b, a. repeat split; try assumption.
  assert (~ lex_lt a b) as Hn.
  { intro Hlt. assert ((x <? y)%float = true) by (apply ltb_key; eauto). congruence. }
  destruct a as [[a1 a2] a3], b as [[b1 b2] b3].
  cbn [lex_le lex_lt] in *. lia.
Qed.

End FloatOrderFacts.

(** * More on the soil-analysis route *)

Section SoilScoreFacts.
Import JS Soil SoilSpec FloatOrder.

(** A field at or above [c] is not below any [c' <= c]. *)
Lemma ge_not_lt (v : jsval) (c c' : float) :
  ge v c = true -> (c' <=? c)%float = true -> lt v c' = false.
Proof.
  unfold ge, lt. intros Hge Hcc.
  apply leb_not_ltb. now apply leb_trans with c.
Qed.

(** A field at or below [c] is not above any [c' >= c]. *)
Lemma le_not_gt (v : jsval) (c c' : float) :
  le v c = true -> (c <=? c')%float = true -> gt v c' = false.
Proof.
  unfold le, gt. intros Hle Hcc.
  apply leb_not_ltb. now apply leb_trans with c.
Qed.

(** A number that is not below [c] is at or above any [c' <= c]. *)
Lemma not_lt_ge (v : jsval) (c c' : float) :
  is_number (ToNumber v) -> is_number c ->
  lt v c = false -> (c' <=? c)%float = true -> ge v c' = true.
Proof.
  unfold lt, ge. intros Hv Hc Hlt Hcc.
  apply leb_trans with c; [exact Hcc |]. now apply not_ltb_leb.
Qed.

(** A number that is not above [c] is at or below any [c' >= c]. *)
Lemma not_gt_le (v : jsval) (c c' : float) :
  is_number (ToNumber v) -> is_number c ->
  gt v c = false -> (c <=? c')%float = true -> le v c' = true.
Proof.
  unfold gt, le. intros Hv Hc Hgt Hcc.
  apply leb_trans with c; [| exact Hcc]. now apply not_ltb_leb.
Qed.

(** No condition triggers exactly when the six tests are all false. *)
Lemma no_advisory_iff (b : Body) :
  triggered_advisories b = [] <->
  lt (nitrogen b) 150 = false /\ lt (phosphorus b) 15 = false /\
  lt (potassium b) 120 = false /\ lt (pH b) 6.0 = false /\
  gt (pH b) 8.0 = false /\ lt (organicMatter b) 2.0 = false.
Proof.
  unfold triggered_advisories, conditions. cbn [filter map fst snd].
  destruct (lt (nitrogen b) 150), (lt (phosphorus b) 15), (lt (potassium b) 120),
    (lt (pH b) 6.0), (gt (pH b) 8.0), (lt (organicMatter b) 2.0);
    cbn [map snd]; split; intro H;
    try discriminate H; try (repeat split; reflexivity);
    try (destruct H as (? & ? & ? & ? & ? & ?); discriminate).
Qed.

(** A score of 100 leaves no band but the best one to each field. *)
Lemma full_score_best_bands (b : Body) :
  healthScore (soilAnalysis b) = 100 -> optimal b.
Proof.
  unfold soilAnalysis, optimal. cbn [healthScore]. rewrite healthScore_var_total.
  unfold total_points.
  pose proof (pH_points_range (pH b)) as HpH.
  pose proof (nitrogen_points_range (nitrogen b)) as Hn.
  pose proof (phosphorus_points_range (phosphorus b)) as Hp.
  pose proof (potassium_points_range (potassium b)) as Hk.
  pose proof (organicMatter_points_range (organicMatter b)) as Hom.
  intro H.
  assert (pH_points (pH b) = 20 /\ nitrogen_points (nitrogen b) = 20 /\
          phosphorus_points (phosphorus b) = 20 /\
          potassium_points (potassium b) = 20 /\
          organicMatter_points (organicMatter b) = 20) as (E1 & E2 & E3 & E4 & E5) by lia.
  clear - E1 E2 E3 E4 E5.
  unfold pH_points, nitrogen_points, phosphorus_points, potassium_points,
    organicMatter_points in *.
  repeat split.
  + destruct (within 6.0 7.5 (pH b)); [reflexivity |].
    destruct (within 5.5 8.0 (pH b)); discriminate.
  + destruct (within 150 300 (nitrogen b)); [reflexivity |].
    destruct (at_least 100 (nitrogen b)); discriminate.
  + destruct (within 15 40 (phosphorus b)); [reflexivity |].
    destruct (at_least 10 (phosphorus b)); discriminate.
  + destruct (within 120 250 (potassium b)); [reflexivity |].
    destruct (at_least 80 (potassium b)); discriminate.
  + destruct (at_least 2.5 (organicMatter b)); [reflexivity |].
    destruct (at_least 1.5 (organicMatter b)); discriminate.
Qed.

(** X1: the route returns health score 100 exactly for the samples whose
    five scored fields all lie in their best band. *)
Theorem healthScore_100_iff_optimal (b : Body) :
  healthScore (soilAnalysis b) = 100 <-> optimal b.
Proof.
  split.
  - apply full_score_best_bands.
  - intros (HpH & Hn & Hp & Hk & Hom).
    unfold soilAnalysis. cbn [healthScore]. rewrite healthScore_var_total.
    unfold total_points, pH_points, nitrogen_points, phosphorus_points,
      potassium_points, organicMatter_points.
    rewrite HpH, Hn, Hp, Hk, Hom. reflexivity.
Qed.

(** X2: a health score of 100 never comes with a deficiency advisory or
    an alert: the recommendation list is then the general urea entry
    alone. *)
Theorem full_score_has_no_advisory (b : Body) :
  healthScore (soilAnalysis b) = 100 ->
  recommendations (soilAnalysis b) = [msg_urea] /\ alerts (soilAnalysis b) = [].
Proof.
  intro H100. split.
  - apply full_score_best_bands in H100.
    destruct H100 as (HpH & Hn & Hp & Hk & Hom).
    unfold within, at_least in *.
    apply andb_true_iff in HpH as [HpH1 HpH2], Hn as [Hn1 _], Hp as [Hp1 _], Hk as [Hk1 _].
    rewrite recommendations_shape.
    assert (triggered_advisories b = []) as ->; [| reflexivity].
    apply no_advisory_iff. repeat split.
    + now apply ge_not_lt with 150%float.
    + now apply ge_not_lt with 15%float.
    + now apply ge_not_lt with 120%float.
    + now apply ge_not_lt with 6.0%float.
    + now apply le_not_gt with 7.5%float.
    + now apply ge_not_lt with 2.5%float.
  - revert H100. unfold soilAnalysis. cbn [healthScore alerts].
    destruct (Z.ltb_spec (healthScore_var b) 50); [lia | reflexivity].
Qed.

Lemma full_score_has_no_advisory_witness :
  recommendations (soilAnalysis ideal) = [msg_urea] /\ alerts (soilAnalysis ideal) = [].
Proof.
  apply (full_score_has_no_advisory ideal). reflexivity.
Defined.

(** X3: when the five scored fields are numbers and no deficiency
    condition triggers, the health score is at least 60; so for such
    samples the critical alert always comes with at least one deficiency
    advisory.  Without the first premise this fails: a body with no field
    gets the alert and no advisory. *)
Theorem no_advisory_scores_at_least_60 :
  (forall b : Body,
      all_numbers b ->
      (triggered_advisories b = [] -> 60 <= healthScore (soilAnalysis b)) /\
      (In msg_critical (alerts (soilAnalysis b)) -> triggered_advisories b <> [])) /\
  (In msg_critical (alerts (soilAnalysis empty_body)) /\
   triggered_advisories empty_body = []).
Proof.
  split; [| split; [left; reflexivity | reflexivity]].
  intros b (NpH & Nn & Np & Nk & Nom).
  assert (triggered_advisories b = [] -> 60 <= healthScore_var b) as Hmain.
  { intro Hnone. apply no_advisory_iff in Hnone.
    destruct Hnone as (Hn & Hp & Hk & HpHlo & HpHhi & Hom).
    rewrite healthScore_var_total. unfold total_points.
    assert (15 <= pH_points (pH b)).
    { unfold pH_points, within.
      rewrite (not_lt_ge (pH b) 6.0 5.5 NpH eq_refl HpHlo eq_refl).
      rewrite (not_gt_le (pH b) 8.0 8.0 NpH eq_refl HpHhi eq_refl).
      destruct (ge (pH b) 6.0 && le (pH b) 7.5); cbn; lia. }
    assert (10 <= nitrogen_points (nitrogen b)).
    { unfold nitrogen_points, at_least.
      rewrite (not_lt_ge (nitrogen b) 150 100 Nn eq_refl Hn eq_refl).
      destruct (within 150 300 (nitrogen b)); lia. }
    assert (10 <= phosphorus_points (phosphorus b)).
    { unfold phosphorus_points, at_least.
      rewrite (not_lt_ge (phosphorus b) 15 10 Np eq_refl Hp eq_refl).
      destruct (within 15 40 (phosphorus b)); lia. }
    assert (10 <= potassium_points (potassium b)).
    { unfold potassium_points, at_least.
      rewrite (not_lt_ge (potassium b) 120 80 Nk eq_refl Hk eq_refl).
      destruct (within 120 250 (potassium b)); lia. }
    assert (15 <= organicMatter_points (organicMatter b)).
    { unfold organicMatter_points, at_least.
      rewrite (not_lt_ge (organicMatter b) 2.0 1.5 Nom eq_refl Hom eq_refl).
      destruct (ge (organicMatter b) 2.5); lia. }
    lia. }
  unfold soilAnalysis. cbn [healthScore alerts]. split.
  - intro Hnone. specialize (Hmain Hnone). lia.
  - intros Halert Hnone. specialize (Hmain Hnone).
    destruct (Z.ltb_spec (healthScore_var b) 50) as [Hlt | Hge]; [lia | destruct Halert].
Qed.

Lemma no_advisory_scores_at_least_60_witness :
  all_numbers (sample 7.8 400 60 300 2.2) /\
  60 <= healthScore (soilAnalysis (sample 7.8 400 60 300 2.2)).
Proof.
  assert (all_numbers (sample 7.8 400 60 300 2.2)) as H by (repeat split).
  split; [exact H |].
  exact (proj1 (proj1 no_advisory_scores_at_least_60 _ H) eq_refl).
Defined.

End SoilScoreFacts.

(** * The provider path, the advisory helpers and the weather route *)

Section AdvisoryFacts.
Import Str Obj Weather Provider Advisory.
Open Scope Q_scope.

Variable cm : CaseMapping.
Variable rd : Rounding.


Lemma own_In {A : Type} (props : list (string * A)) (key : string) (a : A) :
  own props key = Some a -> In (key, a) props.
Proof.
  induction props as [| [k v] rest IH]; cbn [own]; [discriminate |].
  destruct (String.eqb_spec k key) as [-> | _].
  - intros [= ->]. now left.
  - intro H. right. now apply IH.
Qed.

(** Every base temperature is between 24 and 32 degrees. *)
Lemma baseTemp_of_range (normalizedLocation : string) (base : Z) :
  baseTemp_of normalizedLocation = Num base -> (24 <= base <= 32)%Z.
Proof.
  unfold baseTemp_of, get.
  destruct (own baseTemps normalizedLocation) as [t |] eqn:E.
  - apply own_In in E. cbn [baseTemps In] in E.
    repeat (destruct E as [[= <- <-] | E]; [intros [= <-]; lia |]). destruct E.
  - destruct (existsb _ _); [discriminate |].
    destruct (String.eqb _ _); [discriminate |]. intros [= <-]. lia.
Qed.

(** The reading of the generator with its description. *)
Lemma getReliableWeatherData_description (w : World) (location : string) (n : nat) :
  exists (r : Reading) (n' : nat),
    getReliableWeatherData cm rd w location n = (Normal r, n') /\
    getSeasonalDescription rd w (2 + n)%nat = (Normal (description r), (3 + n)%nat).
Proof.
  unfold getReliableWeatherData, getSeasonalDescription, bind, Math_random, ret.
  cbn [Nat.add].
  destruct (Qlt_bool (random w (S (S (S (S n))))) (1 # 4));
    do 2 eexists; (split; reflexivity).
Qed.

(** What a reading of the generator looks like on draws in [0,1): a
    temperature that is a text or a number from 22 to 33, humidity from 65
    to 79, rainfall 0, 1 or 2, and a description. *)
Lemma synthetic_reading_shape (w : World) (location : string) (r : Reading) :
  unit_draws w ->
  synthetic cm rd w location = Normal r ->
  ((exists s, temperature r = TString s) \/
   (exists t, temperature r = TNumber t /\ (22 <= t <= 33)%Z)) /\
  (65 <= humidity r <= 79)%Z /\
  (exists mm, rainfall r = inject_Z mm /\ (0 <= mm <= 2)%Z) /\
  (exists d, description r = Some d).
Proof.
  intros Hdraws Hr. unfold synthetic in Hr.
  destruct (getReliableWeatherData_fields cm rd w location 0%nat)
    as (r1 & n1 & E1 & Htemp & Hhum & _ & Hrain & _).
  destruct (getReliableWeatherData_description w location 0%nat) as (r2 & n2 & E & Hd).
  rewrite E1 in E. injection E as <- <-.
  rewrite E1 in Hr. cbn [fst] in Hr. injection Hr as <-.
  pose proof (floor_scaled_draw rd (random w 0%nat) 4 ltac:(lia)
                (proj1 (Hdraws _)) (proj2 (Hdraws _))) as H4.
  pose proof (floor_scaled_draw rd (random w 1%nat) 15 ltac:(lia)
                (proj1 (Hdraws _)) (proj2 (Hdraws _))) as H15.
  pose proof (floor_scaled_draw rd (random w 5%nat) 3 ltac:(lia)
                (proj1 (Hdraws _)) (proj2 (Hdraws _))) as H3.
  change (inject_Z 4) with 4 in H4. change (inject_Z 15) with 15 in H15.
  change (inject_Z 3) with 3 in H3.
  cbn [Nat.add] in *.
  repeat split.
  - destruct (baseTemp_of (trim (toLowerCase cm location))) as [base | shown] eqn:Hbase.
    + apply baseTemp_of_range in Hbase. cbn [add_variation] in Htemp.
      right. eexists. split; [exact Htemp | lia].
    + cbn [add_variation] in Htemp. left. eauto.
  - rewrite Hhum. lia.
  - rewrite Hhum. lia.
  - rewrite Hrain. destruct (Qlt_bool _ _); eexists; (split; [reflexivity | lia]).
  - destruct (getSeasonalDescription_in_season rd w 2%nat Hdraws) as (d & l & Hd' & _).
    rewrite Hd' in Hd. injection Hd as Hd. now exists d.
Qed.

(** ** The provider path *)




(** ** The advisory helpers *)




(** The insights on a synthetic reading: the warm-weather advice or
    nothing, followed by the clear-weather advice when the description
    says so and nothing else then. *)
Lemma fallback_insights_cases (w : World) (location : string) (r : Reading) :
  unit_draws w ->
  synthetic cm rd w location = Normal r ->
  exists (warm : bool) (d : string),
    description r = Some d /\
    (getAgriculturalInsights r = Normal (if warm then [warm_hi; warm_en] else []) \/
     getAgriculturalInsights r =
     Normal ((if warm then [warm_hi; warm_en] else [])
             ++ (if includes d "clear" then [clear_hi; clear_en] else []))%list).
Proof.
  intros Hdraws Hr.
  destruct (synthetic_reading_shape w location r Hdraws Hr)
    as (Htemp & Hhum & (mm & Hrain & Hmm) & (d & Hd)).
  unfold getAgriculturalInsights. rewrite Hrain, Hd.
  assert ((80 <? humidity r)%Z = false) as -> by (apply Z.ltb_ge; lia).
  assert ((humidity r <? 40)%Z = false) as -> by (apply Z.ltb_ge; lia).
  assert (Qlt_bool 10 (inject_Z mm) = false) as ->.
  { assert (mm = 0 \/ mm = 1 \/ mm = 2)%Z as [-> | [-> | ->]] by lia; reflexivity. }
  assert (exists hot3 : bool,
             (if temperature_gt (temperature r) 35 then ([] ++ [hot_hi; hot_en])%list
              else if temperature_gt (temperature r) 30 then ([] ++ [warm_hi; warm_en])%list
              else if temperature_lt (temperature r) 15 then ([] ++ [cool_hi; cool_en])%list
              else [])
             = (if hot3 then [warm_hi; warm_en] else [])) as (warm & ->).
  { destruct Htemp as [(s & ->) | (t & -> & Ht)]; cbn [temperature_gt temperature_lt].
    - now exists false.
    - assert ((35 <? t)%Z = false) as -> by (apply Z.ltb_ge; lia).
      assert ((t <? 15)%Z = false) as -> by (apply Z.ltb_ge; lia).
      exists (30 <? t)%Z. now destruct (30 <? t)%Z. }
  exists warm, d. split; [reflexivity |].
  assert (mm = 0 \/ mm = 1 \/ mm = 2)%Z as [-> | [-> | ->]] by lia.
  - change (Qlt_bool (inject_Z 0) 1) with true. cbv iota. right.
    destruct (includes d "clear"); [reflexivity | now rewrite app_nil_r].
  - change (Qlt_bool (inject_Z 1) 1) with false. cbv iota. now left.
  - change (Qlt_bool (inject_Z 2) 1) with false. cbv iota. now left.
Qed.

(** X6: on a reading of the synthetic generator (draws in [0,1), any
    location and month) [getAgriculturalInsights] does not throw, and the
    only advices it can give are the warm-weather one and the
    clear-weather one: the temperature stays between 22 and 33, the
    humidity between 65 and 79 and the rainfall at most 2, so the high
    temperature, frost, humidity, dryness and heavy-rain advices are out
    of reach. *)
Theorem fallback_insights_warm_or_clear (w : World) (location : string) (r : Reading) :
  unit_draws w ->
  synthetic cm rd w location = Normal r ->
  exists warm clear : bool,
    getAgriculturalInsights r =
    Normal ((if warm then [warm_hi; warm_en] else [])
            ++ (if clear then [clear_hi; clear_en] else []))%list.
Proof.
  intros Hdraws Hr.
  destruct (fallback_insights_cases w location r Hdraws Hr) as (warm & d & _ & [H | H]).
  - exists warm, false. now rewrite app_nil_r.
  - exists warm, (includes d "clear"). exact H.
Qed.

(** The description of a synthetic reading is an entry of the list of
    the season of the month. *)
Lemma synthetic_description_in_season (w : World) (location : string) (r : Reading) :
  unit_draws w ->
  synthetic cm rd w location = Normal r ->
  exists d l,
    description r = Some d /\
    own descriptions (season_of (getMonth w + 1)) = Some l /\ In d l.
Proof.
  intros Hdraws Hr. unfold synthetic in Hr.
  destruct (getReliableWeatherData_description w location 0%nat) as (r2 & n2 & E & Hd).
  rewrite E in Hr. cbn [fst] in Hr. injection Hr as <-.
  destruct (getSeasonalDescription_in_season rd w 2%nat Hdraws) as (d & l & Hd' & Hl & Hin).
  cbn [Nat.add] in Hd. rewrite Hd' in Hd. injection Hd as Hd.
  exists d, l. auto.
Qed.

(** X13: in the monsoon months (June to September) the synthetic
    generator describes the weather as light rain, moderate rain, overcast
    clouds or thunderstorm, so [getAgriculturalInsights] never adds the
    clear-weather spraying advice to such a reading: the warm-weather
    advice is the only one it can give. *)
Theorem monsoon_fallback_has_no_clear_advice (w : World) (location : string)
        (r : Reading) :
  unit_draws w ->
  (5 <= getMonth w <= 8)%Z ->
  synthetic cm rd w location = Normal r ->
  (exists d, description r = Some d /\
             In d ["light rain"; "moderate rain"; "overcast clouds"; "thunderstorm"]) /\
  (exists warm : bool,
     getAgriculturalInsights r = Normal (if warm then [warm_hi; warm_en] else [])).
Proof.
  intros Hdraws Hmonth Hr.
  destruct (synthetic_description_in_season w location r Hdraws Hr)
    as (d & l & Hd & Hl & Hin).
  assert (season_of (getMonth w + 1) = "monsoon") as Hseason.
  { unfold season_of.
    destruct (Z.geb_spec (getMonth w + 1) 12), (Z.leb_spec (getMonth w + 1) 2),
      (Z.geb_spec (getMonth w + 1) 6), (Z.leb_spec (getMonth w + 1) 9);
      try lia; reflexivity. }
  rewrite Hseason in Hl. cbn in Hl. injection Hl as <-.
  split; [exists d; split; assumption |].
  destruct (fallback_insights_cases w location r Hdraws Hr)
    as (warm & d' & Hd' & Hins).
  rewrite Hd in Hd'. injection Hd' as <-.
  exists warm.
  destruct Hins as [-> | Hins]; [reflexivity |].
  rewrite Hins.
  cbn [In] in Hin. destruct Hin as [<- | [<- | [<- | [<- | []]]]];
    cbn; now rewrite app_nil_r.
Qed.

(** X7: the first crop recommendation follows the month.  It is the
    Kharif line exactly in the months whose descriptions are the monsoon
    ones (June to September); the months with winter descriptions
    (December to February) get the Rabi line, and so do March and
    November, whose descriptions are the summer and the post-monsoon
    ones; the Zaid line is left to April, May and October. *)
Theorem crop_header_and_description_season (month : Z) (weather : Reading) :
  let header := hd_error (getCropRecommendations month weather) in
  (header = Some kharif <-> season_of (month + 1) = "monsoon") /\
  (season_of (month + 1) = "winter" -> header = Some rabi) /\
  (header = Some rabi /\ season_of (month + 1) <> "winter" <->
   month = 2%Z \/ month = 10%Z) /\
  (header = Some zaid <-> month = 3%Z \/ month = 4%Z \/ month = 9%Z).
Proof.
  cbv zeta. unfold getCropRecommendations, season_of.
  destruct (Z.geb_spec month 5), (Z.leb_spec month 8), (Z.geb_spec month 10),
    (Z.leb_spec month 2), (Z.geb_spec (month + 1) 12), (Z.leb_spec (month + 1) 2),
    (Z.geb_spec (month + 1) 6), (Z.leb_spec (month + 1) 9),
    (Z.geb_spec (month + 1) 10), (Z.leb_spec (month + 1) 11);
    try lia; cbn [andb orb];
    try destruct (Qlt_bool 5 (rainfall weather));
    try destruct (temperature_lt (temperature weather) 25);
    cbn [app hd_error];
    repeat split; intros; try discriminate; try reflexivity; try lia;
    try (exfalso; intuition (discriminate || lia)).
Qed.

(** X8: on a reading of the synthetic generator the paddy line is never
    recommended, its rainfall being at most 2: in the monsoon months the
    recommendations are the Kharif line alone, and in every month there
    are at most two lines. *)
Theorem fallback_never_recommends_paddy (w : World) (location : string) (r : Reading)
        (month : Z) :
  unit_draws w ->
  synthetic cm rd w location = Normal r ->
  ~ In paddy (getCropRecommendations month r) /\
  ((5 <= month <= 8)%Z -> getCropRecommendations month r = [kharif]) /\
  (List.length (getCropRecommendations month r) <= 2)%nat.
Proof.
  intros Hdraws Hr.
  destruct (synthetic_reading_shape w location r Hdraws Hr)
    as (_ & _ & (mm & Hrain & Hmm) & _).
  unfold getCropRecommendations. rewrite Hrain.
  assert (Qlt_bool 5 (inject_Z mm) = false) as ->.
  { assert (mm = 0 \/ mm = 1 \/ mm = 2)%Z as [-> | [-> | ->]] by lia; reflexivity. }
  destruct (Z.geb_spec month 5), (Z.leb_spec month 8); cbn [andb app];
    repeat split; try lia; try reflexivity;
    try (cbn [In]; intros [H' | []]; discriminate H');
    destruct ((month >=? 10)%Z || (month <=? 2)%Z);
    try destruct (temperature_lt (temperature r) 25); cbn [app In List.length];
    try lia; intuition discriminate.
Qed.

(** ** The weather route *)






End AdvisoryFacts.

(** * The advisory helpers and the routes on concrete inputs *)

Section AdvisoryExamples.
Import Str Obj Weather Provider Advisory.
Open Scope Q_scope.


Lemma steady_unit_draws (key : option string) (outcome : Fetched) (month : Z) :
  unit_draws (steady key outcome month (1 # 2)).
Proof. intro n. split; apply Qle_bool_imp_le; reflexivity. Defined.

Lemma fallback_insights_warm_or_clear_witness :
  exists r,
    synthetic basic_latin exact_rounding (steady None Rejected 0 (1 # 2)) "ahmedabad" = Normal r /\
    exists warm clear : bool,
      getAgriculturalInsights r =
      Normal ((if warm then [warm_hi; warm_en] else [])
              ++ (if clear then [clear_hi; clear_en] else []))%list.
Proof.
  eexists. split; [reflexivity |].
  apply (fallback_insights_warm_or_clear basic_latin exact_rounding
           (steady None Rejected 0 (1 # 2)) "ahmedabad" _
           (steady_unit_draws None Rejected 0) eq_refl).
Defined.

Lemma fallback_never_recommends_paddy_witness :
  exists r,
    synthetic basic_latin exact_rounding (steady None Rejected 6 (1 # 2)) "mumbai" = Normal r /\
    getCropRecommendations 6 r = [kharif].
Proof.
  eexists. split; [reflexivity |].
  apply (fallback_never_recommends_paddy basic_latin exact_rounding
           (steady None Rejected 6 (1 # 2)) "mumbai" _ 6
           (steady_unit_draws None Rejected 6) eq_refl).
  lia.
Defined.

Lemma monsoon_fallback_has_no_clear_advice_witness :
  exists r,
    synthetic basic_latin exact_rounding (steady None Rejected 6 (1 # 2)) "mumbai" = Normal r /\
    exists warm : bool,
      getAgriculturalInsights r = Normal (if warm then [warm_hi; warm_en] else []).
Proof.
  eexists. split; [reflexivity |].
  apply (monsoon_fallback_has_no_clear_advice basic_latin exact_rounding
           (steady None Rejected 6 (1 # 2)) "mumbai" _
           (steady_unit_draws None Rejected 6)); [cbn; lia | reflexivity].
Defined.


(** The route on a provider answer with a description, and on one whose
    first weather entry has none. *)
Example weather_route_pune :
  weather_route basic_latin exact_rounding
    (steady (Some "k") (Resolved pune_response) 6 (1 # 2)) "pune"
  = Normal (Weather500 "Failed to fetch weather data"
              "weatherService.getPestDiseaseAlert is not a function").
Proof. reflexivity. Qed.

Example weather_route_without_description :
  weather_route basic_latin exact_rounding
    (steady (Some "k")
       (Resolved {| ok := true; content_type := Some "application/json";
                    json := Some {| main := Some {| temp := 264 # 10; main_humidity := 58 |};
                                    weather := Some [ {| cond_description := None;
                                                         cond_icon := "04d" |} ];
                                    wind_speed := None; rain_1h := None; name := "Pune";
                                    sys := Some {| sys_country := "IN" |} |} |})
       6 (1 # 2)) "pune"
  = Normal (Weather500 "Failed to fetch weather data"
              "Cannot read properties of undefined (reading 'includes')").
Proof. reflexivity. Qed.

(** The insights on a hot, humid, rainy reading and on a reading without
    description. *)
Example insights_hot_humid_rainy :
  getAgriculturalInsights
    {| temperature := TNumber 38; humidity := 85; description := Some "heavy rain";
       windSpeed := 10; rainfall := 12; city := "Nagpur"; country := "IN";
       icon := "10d"; source := "OpenWeatherMap" |}
  = Normal [hot_hi; hot_en; humid_hi; humid_en; rain_hi; rain_en].
Proof. reflexivity. Qed.

Example insights_without_description :
  getAgriculturalInsights
    {| temperature := TNumber 20; humidity := 50; description := None;
       windSpeed := 10; rainfall := 0; city := "Nagpur"; country := "IN";
       icon := "01d"; source := "OpenWeatherMap" |}
  = Thrown "Cannot read properties of undefined (reading 'includes')".
Proof. reflexivity. Qed.

End AdvisoryExamples.

(** * The price-negotiation route *)

Section NegotiationFacts.
Import Str Obj Request Num Negotiation.

Variable cm : CaseMapping.

Lemma toLowerCase_empty (s : string) : toLowerCase cm s = "" <-> s = "".
Proof.
  split; [apply toLowerCase_kept |].
  intros ->. now rewrite toLowerCase_plain.
Qed.

(** The names of the price table, Hindi and English, have no capital
    letter. *)
Lemma basePrices_keys_lower (s : string) (p : float) :
  own basePrices s = Some p -> toLowerCase cm s = s.
Proof.
  intro H. apply own_In in H. cbn [basePrices In] in H.
  repeat (destruct H as [[= <- _] | H];
          [rewrite toLowerCase_plain by reflexivity; reflexivity |]).
  destruct H.
Qed.

Lemma basePrices_values (s : string) (p : float) :
  own basePrices s = Some p -> In p [30; 25; 45; 35; 55; 32]%float.
Proof.
  intro H. apply own_In in H. cbn [basePrices In] in H.
  repeat (destruct H as [[= _ <-] | H]; [cbn [In]; tauto |]). destruct H.
Qed.

Lemma price_operand_table (p : float) :
  In p [30; 25; 45; 35; 55; 32]%float -> price_operand (Own p) = Some p.
Proof.
  cbn [In]. intros [<- | [<- | [<- | [<- | [<- | [<- | []]]]]]]; reflexivity.
Qed.

(** The base price of a crop name that names no inherited member: the
    price of the name, else the price of its lower-case form, else 32. *)
Lemma basePrice_of_text (s : string) (number : float) :
  names_member cm s = false ->
  exists p, basePrice_of cm (Text s number) = Some p /\
            In p [30; 25; 45; 35; 55; 32]%float /\
            basePrice_of cm (Text (toLowerCase cm s) number) = Some p.
Proof.
  unfold names_member, basePrice_of, lookup, get.
  rewrite toLowerCase_again.
  destruct (own basePrices s) as [p |] eqn:E.
  - intros _. exists p. pose proof (basePrices_values s p E) as Hin.
    rewrite (basePrices_keys_lower s p E), E.
    rewrite (price_operand_table p Hin). auto.
  - destruct (existsb (String.eqb s) prototype_methods); [discriminate |].
    destruct (String.eqb s "__proto__"); [discriminate |]. cbn [price_operand].
    destruct (own basePrices (toLowerCase cm s)) as [p |] eqn:E'.
    + intros _. exists p. pose proof (basePrices_values _ p E') as Hin.
      rewrite (price_operand_table p Hin). auto.
    + destruct (existsb (String.eqb (toLowerCase cm s)) prototype_methods); [discriminate |].
      destruct (String.eqb (toLowerCase cm s) "__proto__"); [discriminate |].
      intros _. exists 32%float. cbn [price_operand In]. tauto.
Qed.



(** A crop that is a string always has a base price: nothing throws in
    its look-up. *)
Lemma basePrice_of_string (s : string) (number : float) :
  exists p, basePrice_of cm (Text s number) = Some p.
Proof.
  unfold basePrice_of, lookup.
  destruct (price_operand (get basePrices s)); [eauto |].
  destruct (price_operand (get basePrices (toLowerCase cm s))); eauto.
Qed.


(** X10: the letter case of the crop name does not matter: a crop given
    as a string that names no member of [Object.prototype] gets the same
    three prices as its lower-case form (so "Wheat" and "WHEAT" are priced
    as "wheat"). *)
Theorem negotiation_ignores_letter_case (b : Body) (s : string) (number : float) :
  crop b = Text s number ->
  names_member cm s = false ->
  strategy_of (handler cm (Some b))
  = strategy_of (handler cm (Some (with_crop b (Text (toLowerCase cm s) number)))).
Proof.
  intros Hcrop Hmember.
  destruct (basePrice_of_text s number Hmember) as (p & Hp & _ & Hp').
  unfold handler, with_crop. cbn [crop quantity quality marketType].
  rewrite Hcrop, Hp, Hp'. cbn [truthy].
  assert (String.eqb (toLowerCase cm s) "" = String.eqb s "") as ->.
  { destruct (String.eqb_spec s "") as [-> | Hne].
    - now rewrite (proj2 (toLowerCase_empty "")).
    - apply String.eqb_neq. now rewrite toLowerCase_empty. }
  destruct (negb (negb (String.eqb s "")) || negb (truthy (quantity b))); [reflexivity |].
  destruct (ToNumber (quantity b)); reflexivity.
Qed.

(** X11: the route answers 400 exactly when the crop or the quantity is
    falsy (missing, null, false, 0, NaN or the empty string).  With both
    truthy it answers 500 when the crop is a number or [true], which have
    no [toLowerCase], and when the crop or the quantity is an object whose
    conversion throws.  When the crop is a string, the route answers 500
    in one case only: the string is not empty and the quantity is such an
    object. *)
Theorem negotiation_errors (b : Body) :
  ((exists message, handler cm (Some b) = Json400 message) <->
   truthy (crop b) = false \/ truthy (quantity b) = false) /\
  (truthy (crop b) = true -> truthy (quantity b) = true ->
   (exists x, crop b = Number x) \/ crop b = Bool true \/ crop b = Opaque \/
   quantity b = Opaque ->
   exists message, handler cm (Some b) = Json500 message) /\
  (forall s number, crop b = Text s number ->
     ((exists message, handler cm (Some b) = Json500 message) <->
      s <> "" /\ quantity b = Opaque)).
Proof.
  split; [| split].
  - unfold handler. split.
    + intros (message & H).
      destruct (truthy (crop b)), (truthy (quantity b)); auto.
      cbn [negb orb] in H.
      destruct (basePrice_of cm (crop b)); [| discriminate].
      destruct (ToNumber (quantity b)); discriminate.
    + intros [-> | ->]; [| rewrite orb_true_r]; eexists; reflexivity.
  - unfold handler. intros Hc Hq Hcrop. rewrite Hc, Hq. cbn [negb orb].
    destruct Hcrop as [(x & ->) | [-> | [-> | ->]]]; try (eexists; reflexivity).
    destruct (basePrice_of cm (crop b)); eexists; reflexivity.
  - intros s number Hcrop.
    destruct (basePrice_of_string s number) as (p & Hp).
    unfold handler. rewrite Hcrop, Hp. cbn [truthy]. split.
    + intros (message & H).
      destruct (String.eqb_spec s "") as [-> | Hne]; [discriminate H |].
      split; [exact Hne |]. cbn [negb orb] in H.
      destruct (quantity b) as [| | [|] | x | t ? | ? ? |];
        cbn [truthy negb ToNumber] in H; try discriminate H; try reflexivity.
      * destruct (negb (x =? 0)%float && (x =? x)%float); discriminate H.
      * destruct (String.eqb t ""); discriminate H.
    + intros (Hs & Hq). rewrite Hq. apply String.eqb_neq in Hs. rewrite Hs.
      cbn [truthy negb orb ToNumber]. eexists. reflexivity.
Qed.

End NegotiationFacts.

(** * The price-negotiation route on concrete bodies *)

Section NegotiationExamples.
Import Str Obj Request Num Negotiation.


Lemma negotiation_ignores_letter_case_witness :
  strategy_of (handler basic_latin
                 (Some (mkBody (Text "WHEAT" nan) (Number 10) Absent Absent Absent)))
  = strategy_of (handler basic_latin
                   (Some (mkBody (Text "wheat" nan) (Number 10) Absent Absent Absent))).
Proof.
  apply (negotiation_ignores_letter_case basic_latin
           (mkBody (Text "WHEAT" nan) (Number 10) Absent Absent Absent) "WHEAT" nan);
    reflexivity.
Defined.

Lemma negotiation_errors_witness :
  exists message,
    handler basic_latin (Some (mkBody (Text "wheat" nan) Opaque Absent Absent Absent))
    = Json500 message.
Proof.
  apply (proj1 (proj2 (negotiation_errors basic_latin
                         (mkBody (Text "wheat" nan) Opaque Absent Absent Absent))));
    [reflexivity | reflexivity | right; right; right; reflexivity].
Defined.

(** The prices of premium wheat, and a quantity that cannot be converted. *)
Example negotiation_premium_wheat :
  strategy_of (handler basic_latin
                 (Some (mkBody (Text "Wheat" nan) (Number 10) (Text "premium" nan)
                          Absent Absent)))
  = Some {| recommendedPrice := 35; minAcceptablePrice := 31;
            maxNegotiationPrice := 39 |}.
Proof. reflexivity. Qed.

Example negotiation_opaque_quantity :
  handler basic_latin (Some (mkBody (Text "wheat" nan) Opaque Absent Absent Absent))
  = Json500 "Failed to generate negotiation strategy".
Proof. reflexivity. Qed.

End NegotiationExamples.

(** * The farmer question-and-answer route *)

Section FarmerQAFacts.
Import Obj Request FarmerQA.

(** Both tables have the same names, so a key is found in one as in the
    other. *)
Lemma lookup_both_tables (key : string) :
  match get hindi_responses key, get english_responses key with
  | Own h, Own e => In (key, h) hindi_responses /\ In (key, e) english_responses
                    /\ h <> "" /\ e <> ""
  | Inherited a, Inherited b => a = b
  | Undefined, Undefined => True
  | _, _ => False
  end.
Proof.
  unfold get. cbn [own hindi_responses english_responses].
  destruct (String.eqb "pest" key) eqn:E1;
    [apply String.eqb_eq in E1; subst key;
     repeat split; cbn [In hindi_responses english_responses];
     first [discriminate | auto 6] |].
  destruct (String.eqb "irrigation" key) eqn:E2;
    [apply String.eqb_eq in E2; subst key;
     repeat split; cbn [In hindi_responses english_responses];
     first [discriminate | auto 6] |].
  destruct (String.eqb "market" key) eqn:E3;
    [apply String.eqb_eq in E3; subst key;
     repeat split; cbn [In hindi_responses english_responses];
     first [discriminate | auto 6] |].
  destruct (String.eqb "general" key) eqn:E4;
    [apply String.eqb_eq in E4; subst key;
     repeat split; cbn [In hindi_responses english_responses];
     first [discriminate | auto 6] |].
  destruct (existsb (String.eqb key) prototype_methods); [reflexivity |].
  destruct (String.eqb key "__proto__"); [reflexivity | exact I].
Qed.

(** The property key of a category, when its conversion does not throw:
    both tables are asked for the same name. *)
Lemma lookup_key (key : Field) :
  key <> Opaque ->
  exists k,
    (lookup hindi_responses key = Some (get hindi_responses k) /\
     lookup english_responses key = Some (get english_responses k) /\
     (match key with Text k' _ | Composite k' _ => k' | _ => "general" end = k
      \/ get hindi_responses k = Undefined))
    \/ (lookup hindi_responses key = Some Undefined /\
        lookup english_responses key = Some Undefined).
Proof.
  intro Hkey. destruct key as [| | [|] | x | k n | k n |]; cbn [lookup].
  - exists "undefined". left. repeat split. now right.
  - exists "null". left. repeat split. now right.
  - exists "true". left. repeat split. now right.
  - exists "false". left. repeat split. now right.
  - exists "". now right.
  - exists k. left. repeat split. now left.
  - exists k. left. repeat split. now left.
  - contradiction.
Qed.

(** X14: the route answers 400 exactly when the question is not a
    non-empty string.  Otherwise it answers 500 when the category is an
    object whose conversion to a property key throws, and in every other
    case it answers 200 in one language: Hindi when [language] is 'hindi'
    or missing, English for every other value (null, 'Hindi' and 'hi'
    included); the related questions and the action items are the lists of
    that language, and the answer is a text of that language's table: the
    text of the category when the category names one, the general text
    when the category is missing, falsy or unknown.  Only a category that
    names a member of [Object.prototype] gets no text. *)
Theorem farmer_reply_in_one_language (b : Body) :
  ((exists message, handler (Some b) = Json400 message) <->
   forall q number, question b = Text q number -> q = "") /\
  (forall q number, question b = Text q number -> q <> "" ->
   (category b = Opaque -> handler (Some b) = Json500 "Failed to process question") /\
   (category b <> Opaque ->
    let table := if asks_hindi b then hindi_responses else english_responses in
    let key := if truthy (category b) then category b else Text "general" nan in
    exists reply,
      handler (Some b) = Json200 reply /\
      relatedQuestions reply =
        (if asks_hindi b then hindi_relatedQuestions else english_relatedQuestions) /\
      actionItems reply =
        (if asks_hindi b then hindi_actionItems else english_actionItems) /\
      (names_member key = false ->
       exists text,
         answer reply = AnswerText text /\
         In (if names_answer key then match key with
                                      | Text k _ | Composite k _ => k
                                      | _ => "general"
                                      end
             else "general", text) table))).
Proof.
  split.
  - unfold handler. split.
    + intros (message & H) q number Hq. rewrite Hq in H. cbn [truthy not_a_string] in H.
      destruct (String.eqb_spec q ""); [assumption |].
      cbn [negb orb] in H. destruct (answer_of _ _); discriminate.
    + intro H. destruct (question b) as [| | [|] | x | q number | k number |] eqn:Hq;
        try (eexists; reflexivity).
      * cbn [truthy not_a_string]. destruct (negb _ && _); eexists; reflexivity.
      * rewrite (H q number eq_refl). eexists; reflexivity.
  - intros q number Hq Hne. apply String.eqb_neq in Hne.
    assert (is_text (default (language b) "hindi") "hindi" = asks_hindi b) as Hlang.
    { unfold asks_hindi. destruct (language b); reflexivity. }
    split.
    { intro Hop. unfold handler. rewrite Hq, Hop, Hlang. cbn [truthy not_a_string].
      rewrite Hne. reflexivity. }
    intros Hcat. cbv zeta. unfold handler. rewrite Hq, Hlang.
    cbn [truthy not_a_string]. rewrite Hne. cbn [negb orb].
    unfold names_member, names_answer, answer_of.
    set (key := if truthy (category b) then category b else Text "general" nan).
    assert (key <> Opaque) as Hkey.
    { unfold key. destruct (truthy (category b)); [exact Hcat | discriminate]. }
    destruct (lookup_key key Hkey) as (k & Hk).
    pose proof (lookup_both_tables k) as Hboth.
    pose proof (lookup_both_tables "general") as Hgen.
    change (get hindi_responses "general") with
      (Own (A := string) "आपके प्रश्न के अनुसार, वर्तमान मौसम में धान की खेती अच्छी होगी। उचित खाद और सिंचाई का ध्यान रखें।") in Hgen.
    change (get english_responses "general") with
      (Own (A := string) "Based on your question, paddy cultivation will be good this season. Maintain proper fertilizer and irrigation.") in Hgen.
    destruct Hgen as (Hgh & Hge & _ & _).
    destruct Hk as [(Hh & He & Hname) | (Hh & He)].
    + rewrite Hh. destruct (asks_hindi b).
      * rewrite Hh.
        destruct (get hindi_responses k) as [h | a |] eqn:Eh,
                 (get english_responses k) as [e | a' |] eqn:Ee; try contradiction.
        -- destruct Hboth as (Hinh & _ & Hnh & _).
           apply String.eqb_neq in Hnh. rewrite Hnh.
           eexists. split; [reflexivity |].
           cbn [relatedQuestions actionItems answer List.concat]. rewrite !app_nil_r.
           split; [reflexivity |]. split; [reflexivity |]. intros _.
           exists h. split; [reflexivity |].
           destruct Hname as [-> | Hu]; [exact Hinh | discriminate].
        -- eexists. split; [reflexivity |].
           cbn [relatedQuestions actionItems answer List.concat]. rewrite !app_nil_r.
           split; [reflexivity |]. split; [reflexivity |]. discriminate.
        -- eexists. split; [reflexivity |].
           cbn [relatedQuestions actionItems answer List.concat]. rewrite !app_nil_r.
           split; [reflexivity |]. split; [reflexivity |]. intros _.
           eexists. split; [reflexivity | exact Hgh].
      * rewrite He.
        destruct (get hindi_responses k) as [h | a |] eqn:Eh,
                 (get english_responses k) as [e | a' |] eqn:Ee; try contradiction.
        -- destruct Hboth as (_ & Hine & _ & Hne').
           apply String.eqb_neq in Hne'. rewrite Hne'.
           eexists. split; [reflexivity |].
           cbn [relatedQuestions actionItems answer List.concat]. rewrite !app_nil_r.
           split; [reflexivity |]. split; [reflexivity |]. intros _.
           exists e. split; [reflexivity |].
           destruct Hname as [-> | Hu]; [exact Hine | discriminate].
        -- eexists. split; [reflexivity |].
           cbn [relatedQuestions actionItems answer List.concat]. rewrite !app_nil_r.
           split; [reflexivity |]. split; [reflexivity |]. discriminate.
        -- eexists. split; [reflexivity |].
           cbn [relatedQuestions actionItems answer List.concat]. rewrite !app_nil_r.
           split; [reflexivity |]. split; [reflexivity |]. intros _.
           eexists. split; [reflexivity | exact Hge].
    + rewrite Hh. destruct (asks_hindi b).
      * rewrite Hh. eexists. split; [reflexivity |].
        cbn [relatedQuestions actionItems answer List.concat]. rewrite !app_nil_r.
        split; [reflexivity |]. split; [reflexivity |]. intros _.
        eexists. split; [reflexivity | exact Hgh].
      * rewrite He. eexists. split; [reflexivity |].
        cbn [relatedQuestions actionItems answer List.concat]. rewrite !app_nil_r.
        split; [reflexivity |]. split; [reflexivity |]. intros _.
        eexists. split; [reflexivity | exact Hge].
Qed.

Lemma farmer_reply_in_one_language_witness :
  exists reply,
    handler (Some (mkBody (Text "When should I water?" nan) Null (Text "irrigation" nan)
                          Absent))
    = Json200 reply /\
    relatedQuestions reply = english_relatedQuestions /\
    actionItems reply = english_actionItems /\
    exists text,
      answer reply = AnswerText text /\ In ("irrigation", text) english_responses.
Proof.
  destruct (proj2 (proj2 (farmer_reply_in_one_language
                            (mkBody (Text "When should I water?" nan) Null
                                    (Text "irrigation" nan) Absent))
                         "When should I water?" nan eq_refl ltac:(discriminate))
                  ltac:(discriminate))
    as (reply & Hreply & Hrelated & Hactions & Hanswer).
  exists reply. repeat split; try assumption.
  exact (Hanswer eq_refl).
Defined.

(** A category that no property key can be made of. *)
Example farmer_opaque_category :
  handler (Some (mkBody (Text "When should I water?" nan) Absent Opaque Absent))
  = Json500 "Failed to process question".
Proof. reflexivity. Qed.

End FarmerQAFacts.
